(** * HuggingFaceService (src/lib/huggingface.ts): a shallow embedding

    The service formats a prompt, performs one remote inference call and
    shapes the answer into an [AIResponse]; when the call or the parsing of
    its answer fails, it degrades to a locally computed fallback.

    The embedding follows the TypeScript source method by method.  Values of
    type [any] are the JSON fragment of JavaScript plus [undefined] (no
    function, symbol or cyclic object); a string is a sequence of code units
    below 256; a thrown exception and a console line are explicit (monad
    [Eff]); the inference client [hf], the [FileReader] and the
    engine-defined parts of the built-ins are parameters ([HfInference],
    [Platform]).  A remote call or a file read either answers or fails: one
    that never settles is not modelled.  The service object holds the model
    name only, so the singleton accessor [getInstance] has nothing to
    embed. *)

From Stdlib Require Import String Ascii List Bool Arith Lia ZArith QArith.
From Stdlib Require Import DecimalString DecimalNat.
Import ListNotations.
Local Close Scope Q_scope.
Local Open Scope list_scope.
Local Open Scope string_scope.

Set Warnings "-register-all".

Set Implicit Arguments.

(** ** Characters and strings *)

(** The double quote character, as a one-character string. *)
Definition dq : string := String (ascii_of_nat 34) EmptyString.

(** WhiteSpace and LineTerminator code units (ECMA-262 12.2, 12.3) below
    256: TAB, LF, VT, FF, CR, SP and NBSP.  This is the class [\s] of a
    regular expression and the set removed by [String.prototype.trim]. *)
Definition is_white_space (c : ascii) : bool :=
  let n := nat_of_ascii c in
  (((9 <=? n) && (n <=? 13)) || (n =? 32) || (n =? 160))%nat.

(** The class [\d]. *)
Definition is_digit (c : ascii) : bool :=
  let n := nat_of_ascii c in ((48 <=? n) && (n <=? 57))%nat.

Fixpoint string_forallb (p : ascii -> bool) (s : string) : bool :=
  match s with
  | EmptyString => true
  | String c s' => p c && string_forallb p s'
  end.

Fixpoint trimStart (s : string) : string :=
  match s with
  | EmptyString => EmptyString
  | String c s' => if is_white_space c then trimStart s' else s
  end.

(** [trimEnd] keeps a character when it is not white space or when something
    that is kept follows it. *)
Fixpoint trimEnd (s : string) : string :=
  match s with
  | EmptyString => EmptyString
  | String c s' =>
      match trimEnd s' with
      | EmptyString => if is_white_space c then EmptyString else String c EmptyString
      | r => String c r
      end
  end.

(** [String.prototype.trim]. *)
Definition trim (s : string) : string := trimEnd (trimStart s).

(** [String.prototype.split] with a one-character separator: the fields
    between the separators, in order; a string without separator is the only
    field. *)
Fixpoint split (sep : ascii) (s : string) : list string :=
  match s with
  | EmptyString => [EmptyString]
  | String c s' =>
      if Ascii.eqb c sep then EmptyString :: split sep s'
      else match split sep s' with
           | field :: fields => String c field :: fields
           | [] => [String c EmptyString]
           end
  end.

(** [Array.prototype.join] on an array of strings. *)
Definition join (sep : string) (l : list string) : string := String.concat sep l.

(** [Array.prototype.slice(start, stop)] for literal bounds
    [0 <= start <= stop]. *)
Definition slice {A} (start stop : nat) (l : list A) : list A :=
  firstn (stop - start) (skipn start l).

(** ToString of an array length or index: an integer below 2^32 prints as its
    decimal numeral. *)
Definition string_of_nat (n : nat) : string :=
  NilZero.string_of_uint (Nat.to_uint n).

(** The value read back from a decimal numeral. *)
Definition nat_of_string (s : string) : option nat :=
  option_map Nat.of_uint (NilZero.uint_of_string s).

(** [s || d] on strings where [s] may be [undefined]: the empty string and
    [undefined] are falsy. *)
Definition or_else (s : option string) (d : string) : string :=
  match s with
  | Some (String c r) => String c r
  | _ => d
  end.

(** ** Regular expressions

    The source tests two literals with [RegExp.prototype.test].  Neither has
    a flag, a capture that is referred to, or an anchor, so [test] answers
    whether some substring of the subject belongs to the language of the
    expression.  Membership is decided with derivatives. *)

Inductive regex : Type :=
| Void : regex
| Eps : regex
| Class : (ascii -> bool) -> regex
| Seq : regex -> regex -> regex
| Alt : regex -> regex -> regex
| Star : regex -> regex.

Definition Chr (c : ascii) : regex := Class (Ascii.eqb c).
Definition Any : regex := Class (fun _ => true).
(** [r+], [r?] and [r{n}], [r{n,m}] (with [m = n + extra]). *)
Definition Plus (r : regex) : regex := Seq r (Star r).
Definition Opt (r : regex) : regex := Alt r Eps.
Fixpoint Upto (extra : nat) (r : regex) : regex :=
  match extra with
  | O => Eps
  | S k => Opt (Seq r (Upto k r))
  end.
Fixpoint Rep (n extra : nat) (r : regex) : regex :=
  match n with
  | O => Upto extra r
  | S k => Seq r (Rep k extra r)
  end.

Fixpoint nullable (r : regex) : bool :=
  match r with
  | Void => false
  | Eps => true
  | Class _ => false
  | Seq a b => nullable a && nullable b
  | Alt a b => nullable a || nullable b
  | Star _ => true
  end.

Fixpoint deriv (c : ascii) (r : regex) : regex :=
  match r with
  | Void => Void
  | Eps => Void
  | Class p => if p c then Eps else Void
  | Seq a b =>
      if nullable a then Alt (Seq (deriv c a) b) (deriv c b)
      else Seq (deriv c a) b
  | Alt a b => Alt (deriv c a) (deriv c b)
  | Star a => Seq (deriv c a) (Star a)
  end.

(** The whole string belongs to the language of [r]. *)
Fixpoint matches (r : regex) (s : string) : bool :=
  match s with
  | EmptyString => nullable r
  | String c s' => matches (deriv c r) s'
  end.

(** Some prefix of [s] belongs to the language of [r]. *)
Fixpoint matches_prefix (r : regex) (s : string) : bool :=
  nullable r ||
  match s with
  | EmptyString => false
  | String c s' => matches_prefix (deriv c r) s'
  end.

(** [RegExp.prototype.test] for an expression without flags: a match may
    start at any index. *)
Fixpoint test (r : regex) (s : string) : bool :=
  matches_prefix r s ||
  match s with
  | EmptyString => false
  | String _ s' => test r s'
  end.

(** The language of an expression. *)
Inductive lang : regex -> string -> Prop :=
| lang_Eps : lang Eps EmptyString
| lang_Class : forall (p : ascii -> bool) (c : ascii),
    p c = true -> lang (Class p) (String c EmptyString)
| lang_Seq : forall a b s t, lang a s -> lang b t -> lang (Seq a b) (s ++ t)
| lang_Alt_l : forall a b s, lang a s -> lang (Alt a b) s
| lang_Alt_r : forall a b s, lang b s -> lang (Alt a b) s
| lang_Star_nil : forall a, lang (Star a) EmptyString
| lang_Star_cons : forall a s t,
    lang a s -> lang (Star a) t -> lang (Star a) (s ++ t).

Definition non_space (c : ascii) : bool := negb (is_white_space c).

(** [/\S+@\S+\.\S+/] *)
Definition email_regex : regex :=
  Seq (Plus (Class non_space))
   (Seq (Chr "@")
    (Seq (Plus (Class non_space))
     (Seq (Chr ".")
      (Plus (Class non_space))))).

(** The class [[\d\s\-\(\)]]. *)
Definition phone_char (c : ascii) : bool :=
  is_digit c || is_white_space c || Ascii.eqb c "-" || Ascii.eqb c "(" || Ascii.eqb c ")".

Definition one_to_nine (c : ascii) : bool :=
  let n := nat_of_ascii c in ((49 <=? n) && (n <=? 57))%nat.

(** [/[\+]?[1-9]?[\d\s\-\(\)]{7,15}/] *)
Definition phone_regex : regex :=
  Seq (Opt (Chr "+"))
   (Seq (Opt (Class one_to_nine))
    (Rep 7 8 (Class phone_char))).

(** ** Completions: a value or a thrown exception *)

(** What the embedded code can throw: the two error classes raised by the
    built-ins it calls, and whatever a host object (the inference client, the
    file reader) rejects with. *)
Inductive exn : Type :=
| TypeError : exn
| SyntaxError : exn
| HostError : string -> exn.

Inductive completion (A : Type) : Type :=
| Return : A -> completion A
| Throw : exn -> completion A.
Arguments Return {A} _.
Arguments Throw {A} _.

(** One line written with [console.error(label, error)]. *)
Definition console_line : Type := (string * exn)%type.

(** An effectful computation: the console lines it wrote and its completion.
    For an [async] method, [Return] is the value its promise resolves to and
    [Throw] the reason it rejects with. *)
Definition Eff (A : Type) : Type := (list console_line * completion A)%type.

Class Monad (M : Type -> Type) : Type := {
  ret : forall A, A -> M A;
  bind : forall A B, M A -> (A -> M B) -> M B
}.
Arguments ret {M _ A} _.
Arguments bind {M _ A B} _ _.

#[export] Instance Monad_completion : Monad completion := {
  ret := fun A a => Return a;
  bind := fun A B m k =>
    match m with
    | Return a => k a
    | Throw e => Throw e
    end
}.

#[export] Instance Monad_Eff : Monad Eff := {
  ret := fun A a => ([], Return a);
  bind := fun A B m k =>
    match m with
    | (out, Return a) => let (out', c) := k a in ((out ++ out')%list, c)
    | (out, Throw e) => (out, Throw e)
    end
}.

Declare Scope monad_scope.
Delimit Scope monad_scope with monad.
Notation "x <- m ;; k" := (bind m (fun x => k))
  (at level 61, m at next level, right associativity) : monad_scope.
Notation "m ;; k" := (bind m (fun _ => k))
  (at level 61, right associativity) : monad_scope.
Local Open Scope monad_scope.

(** A pure computation that may throw, run as an effect. *)
Definition lift {A} (c : completion A) : Eff A := ([], c).

(** [try { body } catch (error) { handler }]. *)
Definition try_catch {A} (body : Eff A) (handler : exn -> Eff A) : Eff A :=
  match body with
  | (out, Return a) => (out, Return a)
  | (out, Throw e) => let (out', c) := handler e in ((out ++ out')%list, c)
  end.

(** [try { body } catch { handler }] for code that writes nothing. *)
Definition try_catch_pure {A} (body : completion A) (handler : exn -> completion A)
  : completion A :=
  match body with
  | Return a => Return a
  | Throw e => handler e
  end.

Definition console_error (label : string) (error : exn) : Eff unit :=
  ([(label, error)], Return tt).

(** ** Values of type [any] *)

(** The JSON fragment of JavaScript values, and [undefined].  The properties
    of an object are listed in the order in which [Object.keys] enumerates
    them. *)
Inductive value (number : Type) : Type :=
| VUndefined : value number
| VNull : value number
| VBool : bool -> value number
| VNum : number -> value number
| VStr : string -> value number
| VArr : list (value number) -> value number
| VObj : list (string * value number) -> value number.
Arguments VUndefined {number}.
Arguments VNull {number}.
Arguments VBool {number} _.
Arguments VNum {number} _.
Arguments VStr {number} _.
Arguments VArr {number} _.
Arguments VObj {number} _.

(** ** The platform

    What the source takes from the JavaScript engine and the browser and that
    is not fixed here: the Number type, [JSON.parse], the date formats an
    engine accepts beyond the standard one, the properties a value inherits
    from its prototype chain, and the file reader. *)
Class Platform : Type := {
  number : Type;
  (** the Number that is a given array length *)
  Number_ofNat : nat -> number;
  (** Number::toString with radix 10 *)
  Number_toString : number -> string;
  (** neither NaN nor an infinity *)
  Number_isFinite : number -> bool;
  (** ToBoolean: neither a zero nor NaN *)
  Number_isTruthy : number -> bool;
  (** [JSON.parse(text)]: the parsed value, or a thrown [SyntaxError] *)
  JSON_parse : string -> completion (value number);
  JSON_parse_empty_object : JSON_parse "{}" = Return (VObj []);
  JSON_parse_empty_text : JSON_parse "" = Throw SyntaxError;
  (** whether [Date.parse] answers NaN on a string outside the standard
      date-time format (ECMA-262 21.4.3.2 leaves it to the engine) *)
  Date_parse_engine_isNaN : string -> bool;
  (** [receiver[key]] when [receiver] has no own property [key]: the
      prototype chain answers *)
  inherited : value number -> string -> value number;
  File : Type;
  (** [FileReader.readAsDataURL(file)]: [Return result] when the [load]
      event fires with [reader.result = result], [Throw event] when the
      [error] event fires *)
  FileReader_readAsDataURL : File -> completion string
}.

(** [any] *)
Abbreviation any := (value number).

Section Builtins.
Context {P : Platform}.

(** ToBoolean. *)
Definition ToBoolean (v : any) : bool :=
  match v with
  | VUndefined | VNull => false
  | VBool b => b
  | VNum n => Number_isTruthy n
  | VStr EmptyString => false
  | VStr _ => true
  | VArr _ | VObj _ => true
  end.

(** [v || {}] *)
Definition or_empty_object (v : any) : any :=
  if ToBoolean v then v else VObj [].

Fixpoint assoc (key : string) (properties : list (string * any)) : option any :=
  match properties with
  | [] => None
  | (k, v) :: rest => if String.eqb k key then Some v else assoc key rest
  end.

(** The array index that [key] is the canonical numeral of. *)
Definition array_index (key : string) : option nat :=
  match nat_of_string key with
  | Some i => if String.eqb (string_of_nat i) key then Some i else None
  | None => None
  end.

(** [receiver[key]]: a [TypeError] on [undefined] and [null]; otherwise the
    own property when there is one (a property of a record, an element or
    the length of an array, a code unit or the length of a string), and the
    inherited one when there is none. *)
Definition get (receiver : any) (key : string) : completion any :=
  match receiver with
  | VUndefined | VNull => Throw TypeError
  | VObj properties =>
      match assoc key properties with
      | Some v => Return v
      | None => Return (inherited receiver key)
      end
  | VArr elements =>
      match array_index key with
      | Some i =>
          match nth_error elements i with
          | Some v => Return v
          | None => Return (inherited receiver key)
          end
      | None =>
          if String.eqb key "length"
          then Return (VNum (Number_ofNat (List.length elements)))
          else Return (inherited receiver key)
      end
  | VStr s =>
      match array_index key with
      | Some i =>
          match String.get i s with
          | Some c => Return (VStr (String c EmptyString))
          | None => Return (inherited receiver key)
          end
      | None =>
          if String.eqb key "length"
          then Return (VNum (Number_ofNat (String.length s)))
          else Return (inherited receiver key)
      end
  | VBool _ | VNum _ => Return (inherited receiver key)
  end.

(** [Object.keys(v)]: the own enumerable string keys. *)
Definition Object_keys (v : any) : completion (list string) :=
  match v with
  | VUndefined | VNull => Throw TypeError
  | VObj properties => Return (map fst properties)
  | VArr elements => Return (map string_of_nat (seq 0 (List.length elements)))
  | VStr s => Return (map string_of_nat (seq 0 (String.length s)))
  | VBool _ | VNum _ => Return []
  end.

Fixpoint sequence {A} (l : list (completion A)) : completion (list A) :=
  match l with
  | [] => Return []
  | c :: rest => a <- c ;; r <- sequence rest ;; ret (a :: r)
  end.

(** [String(v)], that is ToString.  An array joins its elements with commas,
    [undefined] and [null] elements printing as nothing.  A record prints as
    [[object Object]] through [Object.prototype.toString]; a record with an
    own property [toString] hides that method behind a value that is not
    callable, [valueOf] answers the record itself, and OrdinaryToPrimitive
    throws a [TypeError]. *)
Fixpoint ToString (v : any) : completion string :=
  match v with
  | VUndefined => Return "undefined"
  | VNull => Return "null"
  | VBool true => Return "true"
  | VBool false => Return "false"
  | VNum n => Return (Number_toString n)
  | VStr s => Return s
  | VArr elements =>
      parts <- sequence (map (fun x =>
                 match x with
                 | VUndefined | VNull => Return ""
                 | _ => ToString x
                 end) elements) ;;
      ret (join "," parts)
  | VObj properties =>
      match assoc "toString" properties with
      | Some _ => Throw TypeError
      | None => Return "[object Object]"
      end
  end.

(** *** [JSON.stringify(value, null, 2)] *)

Definition hex_digit (n : nat) : ascii :=
  if (n <? 10)%nat then ascii_of_nat (48 + n) else ascii_of_nat (87 + n).

Definition backslash : string := String (ascii_of_nat 92) EmptyString.

(** QuoteJSONString on one code unit. *)
Definition quote_code_unit (c : ascii) : string :=
  let n := nat_of_ascii c in
  if (n =? 8)%nat then backslash ++ "b"
  else if (n =? 9)%nat then backslash ++ "t"
  else if (n =? 10)%nat then backslash ++ "n"
  else if (n =? 12)%nat then backslash ++ "f"
  else if (n =? 13)%nat then backslash ++ "r"
  else if (n =? 34)%nat then backslash ++ dq
  else if (n =? 92)%nat then backslash ++ backslash
  else if (n <? 32)%nat
       then backslash ++ "u00"
            ++ String (hex_digit (n / 16)) (String (hex_digit (n mod 16)) EmptyString)
  else String c EmptyString.

Fixpoint quote_code_units (s : string) : string :=
  match s with
  | EmptyString => EmptyString
  | String c s' => quote_code_unit c ++ quote_code_units s'
  end.

Definition QuoteJSONString (s : string) : string :=
  dq ++ quote_code_units s ++ dq.

Definition LF : string := String (ascii_of_nat 10) EmptyString.

(** The gap of the third argument [2]. *)
Definition gap : string := "  ".

(** SerializeJSONProperty at indentation [indent]; [None] is [undefined]
    (the value has no JSON text). *)
Fixpoint SerializeJSONProperty (indent : string) (v : any) : option string :=
  match v with
  | VUndefined => None
  | VNull => Some "null"
  | VBool true => Some "true"
  | VBool false => Some "false"
  | VNum n => Some (if Number_isFinite n then Number_toString n else "null")
  | VStr s => Some (QuoteJSONString s)
  | VArr elements =>
      let inner := indent ++ gap in
      let partial :=
        map (fun x =>
               match SerializeJSONProperty inner x with
               | Some text => text
               | None => "null"
               end) elements in
      match partial with
      | [] => Some "[]"
      | _ => Some ("[" ++ LF ++ inner ++ join ("," ++ LF ++ inner) partial
                   ++ LF ++ indent ++ "]")
      end
  | VObj properties =>
      let inner := indent ++ gap in
      let partial :=
        flat_map (fun kv =>
               match kv with
               | (k, x) =>
                   match SerializeJSONProperty inner x with
                   | Some text => [QuoteJSONString k ++ ": " ++ text]
                   | None => []
                   end
               end) properties in
      match partial with
      | [] => Some "{}"
      | _ => Some ("{" ++ LF ++ inner ++ join ("," ++ LF ++ inner) partial
                   ++ LF ++ indent ++ "}")
      end
  end.

Definition JSON_stringify (v : any) : option string :=
  SerializeJSONProperty "" v.

(** A template literal prints the [undefined] result as the word. *)
Definition template_of (text : option string) : string :=
  match text with
  | Some s => s
  | None => "undefined"
  end.

End Builtins.

(** ** [Date.parse]

    ECMA-262 21.4.3.2: a string in the date-time string format whose elements
    are legal parses to a time value; on any other string the answer is the
    engine's.  [is_iso_date] recognises, of that format, a calendar date
    [YYYY-MM-DD], alone or followed by [THH:mm], [THH:mm:ss] or
    [THH:mm:ss.sss] and an optional [Z] or [+HH:mm] / [-HH:mm] offset. *)

Definition digit_value (c : ascii) : option nat :=
  if is_digit c then Some (nat_of_ascii c - 48) else None.

(** Exactly [n] digits, and what follows them. *)
Fixpoint digits (n : nat) (acc : nat) (s : string) : option (nat * string) :=
  match n with
  | O => Some (acc, s)
  | S k =>
      match s with
      | EmptyString => None
      | String c s' =>
          match digit_value c with
          | Some d => digits k (10 * acc + d) s'
          | None => None
          end
      end
  end.

Definition expect (c : ascii) (s : string) : option string :=
  match s with
  | String c' s' => if Ascii.eqb c c' then Some s' else None
  | EmptyString => None
  end.

Definition is_leap_year (y : nat) : bool :=
  ((y mod 4 =? 0) && (negb (y mod 100 =? 0) || (y mod 400 =? 0)))%nat.

Definition days_in_month (y m : nat) : nat :=
  match m with
  | 1 | 3 | 5 | 7 | 8 | 10 | 12 => 31
  | 4 | 6 | 9 | 11 => 30
  | 2 => if is_leap_year y then 29 else 28
  | _ => 0
  end.

(** [HH:mm] with [HH <= 23] and [mm <= 59], and what follows. *)
Definition hours_minutes (s : string) : option string :=
  match digits 2 0 s with
  | Some (h, s1) =>
      match expect ":" s1 with
      | Some s2 =>
          match digits 2 0 s2 with
          | Some (m, s3) => if ((h <=? 23) && (m <=? 59))%nat then Some s3 else None
          | None => None
          end
      | None => None
      end
  | None => None
  end.

(** Nothing, [Z], or a signed [HH:mm], up to the end of the string. *)
Definition utc_offset (s : string) : bool :=
  match s with
  | EmptyString => true
  | String c s' =>
      if Ascii.eqb c "Z" then String.eqb s' EmptyString
      else if Ascii.eqb c "+" || Ascii.eqb c "-" then
        match hours_minutes s' with
        | Some rest => String.eqb rest EmptyString
        | None => false
        end
      else false
  end.

(** Optional [:ss] with [ss <= 59], optional [.sss], then the offset. *)
Definition seconds_and_offset (s : string) : bool :=
  match expect ":" s with
  | Some s1 =>
      match digits 2 0 s1 with
      | Some (sec, s2) =>
          (sec <=? 59)%nat &&
          match expect "." s2 with
          | Some s3 =>
              match digits 3 0 s3 with
              | Some (_, s4) => utc_offset s4
              | None => false
              end
          | None => utc_offset s2
          end
      | None => false
      end
  | None => utc_offset s
  end.

Definition iso_time (s : string) : bool :=
  match s with
  | EmptyString => true
  | String c s' =>
      Ascii.eqb c "T" &&
      match hours_minutes s' with
      | Some rest => seconds_and_offset rest
      | None => false
      end
  end.

Definition is_iso_date (s : string) : bool :=
  match digits 4 0 s with
  | Some (y, s1) =>
      match expect "-" s1 with
      | Some s2 =>
          match digits 2 0 s2 with
          | Some (m, s3) =>
              match expect "-" s3 with
              | Some s4 =>
                  match digits 2 0 s4 with
                  | Some (d, s5) =>
                      ((1 <=? d) && (d <=? days_in_month y m))%nat && iso_time s5
                  | None => false
                  end
              | None => false
              end
          | None => false
          end
      | None => false
      end
  | None => false
  end.

(** [isNaN(Date.parse(s))] *)
Definition Date_parse_isNaN {P : Platform} (s : string) : bool :=
  if is_iso_date s then false else Date_parse_engine_isNaN s.

(** ** The inference client ([@huggingface/inference]) *)

Record TextGenerationParameters : Type := {
  max_new_tokens : nat;
  temperature : Q;
  top_p : Q;
  return_full_text : bool
}.

Record TextGenerationArgs : Type := {
  tg_model : string;
  tg_inputs : string;
  tg_parameters : TextGenerationParameters
}.

(** [generated_text] may be missing from the answer. *)
Record TextGenerationOutput : Type := {
  generated_text : option string
}.

(** [image] is [None] when the caller passes [undefined]. *)
Record VQAInputs : Type := {
  question : string;
  image : option string
}.

Record VQAArgs : Type := {
  vqa_model : string;
  vqa_inputs : VQAInputs
}.

Record VQAOutput : Type := {
  answer : option string
}.

(** The client [hf]: each call answers or throws.  Nothing is assumed about
    which. *)
Record HfInference : Type := {
  textGeneration : TextGenerationArgs -> completion TextGenerationOutput;
  visualQuestionAnswering : VQAArgs -> completion VQAOutput
}.

(** ** [AIResponse] *)

(** [data] and [error] are optional properties: [None] is an absent one. *)
Record AIResponse {P : Platform} : Type := {
  success : bool;
  data : option any;
  error : option string
}.

(** ** [HuggingFaceService] *)

Module HuggingFaceService.
Section Service.
Context {P : Platform}.
Variable hf : HfInference.

Definition model : string := "Qwen/Qwen2.5-VL-7B-Instruct".

(** [array[i]]: [undefined] past the end. *)
Definition index (array : list any) (i : nat) : any := nth i array VUndefined.

(** [array.some(predicate)]: stops at the first element that satisfies the
    predicate, and at the first call that throws. *)
Fixpoint some {A} (predicate : A -> completion bool) (array : list A)
  : completion bool :=
  match array with
  | [] => Return false
  | x :: rest =>
      b <- predicate x ;;
      if (b : bool) then Return true else some predicate rest
  end.

(** [array.forEach(body)] with the object the body mutates passed along. *)
Fixpoint forEach {A S} (body : S -> A -> completion S) (array : list A) (state : S)
  : completion S :=
  match array with
  | [] => Return state
  | x :: rest => state' <- body state x ;; forEach body rest state'
  end.

(** *** [fileToBase64] *)

(** The promise resolves, from the [load] handler, with the second field of
    the result split at commas ([undefined] when there is none), and rejects
    with the event of the [error] handler. *)
Definition fileToBase64 (file : File) : completion (option string) :=
  result <- FileReader_readAsDataURL file ;;
  ret (nth_error (split "," result) 1).

(** [Object.keys(data[0] || {})], the [columns] of both helpers below. *)
Definition columns_of (data : list any) : completion (list string) :=
  Object_keys (or_empty_object (index data 0)).

(** *** [createDataSummary] *)

Definition createDataSummary (data : list any) (filename : string)
  : completion string :=
  if (List.length data =? 0)%nat then Return "No data available"
  else
    columns <- columns_of data ;;
    let sampleRows := slice 0 3 data in
    ret ("Dataset: " ++ filename ++ "
Rows: " ++ string_of_nat (List.length data) ++ "
Columns: " ++ join ", " columns ++ "
Sample Data: " ++ template_of (JSON_stringify (VArr sampleRows))).

(** *** [generateFallbackAnalysis] *)

(** The object [analysis.patterns_detected]. *)
Record patterns : Type := {
  emails : list string;
  phones : list string;
  dates : list string;
  addresses : list string
}.

Definition push_email (p : patterns) (col : string) : patterns :=
  {| emails := (emails p ++ [col])%list; phones := phones p;
     dates := dates p; addresses := addresses p |}.

Definition push_phone (p : patterns) (col : string) : patterns :=
  {| emails := emails p; phones := (phones p ++ [col])%list;
     dates := dates p; addresses := addresses p |}.

Definition push_date (p : patterns) (col : string) : patterns :=
  {| emails := emails p; phones := phones p;
     dates := (dates p ++ [col])%list; addresses := addresses p |}.

Definition strings (l : list string) : any := VArr (map VStr l).

(** The object literal [analysis], with [patterns_detected] as it stands
    when the function returns. *)
Definition analysis_object (p : patterns) : any :=
  VObj [ ("quality_issues", VArr []);
         ("cleaning_recommendations",
            strings ["Remove empty rows"; "Trim whitespace"; "Handle missing values"]);
         ("column_analysis", VObj []);
         ("patterns_detected",
            VObj [ ("emails", strings (emails p));
                   ("phones", strings (phones p));
                   ("dates", strings (dates p));
                   ("addresses", strings (addresses p)) ]) ].

(** [data.slice(0, 10).map(row => row[col]).filter(val => val)] *)
Definition sample_of (data : list any) (col : string) : completion (list any) :=
  cells <- sequence (map (fun row => get row col) (slice 0 10 data)) ;;
  ret (filter ToBoolean cells).

Definition looks_like_email (val : any) : completion bool :=
  s <- ToString val ;; ret (test email_regex s).

Definition looks_like_phone (val : any) : completion bool :=
  s <- ToString val ;; ret (test phone_regex s).

Definition looks_like_date (val : any) : completion bool :=
  s <- ToString val ;; ret (negb (Date_parse_isNaN s)).

(** The body of [columns.forEach]. *)
Definition detect (data : list any) (p : patterns) (col : string)
  : completion patterns :=
  sample <- sample_of data col ;;
  is_email <- some looks_like_email sample ;;
  let p1 := if (is_email : bool) then push_email p col else p in
  is_phone <- some looks_like_phone sample ;;
  let p2 := if (is_phone : bool) then push_phone p1 col else p1 in
  is_date <- some looks_like_date sample ;;
  let p3 := if (is_date : bool) then push_date p2 col else p2 in
  ret p3.

Definition no_patterns : patterns :=
  {| emails := []; phones := []; dates := []; addresses := [] |}.

(** [patterns_detected] when [forEach] has run over all the columns. *)
Definition detect_patterns (data : list any) : completion patterns :=
  columns <- columns_of data ;;
  forEach (detect data) columns no_patterns.

Definition generateFallbackAnalysis (data : list any) : completion any :=
  if (List.length data =? 0)%nat then Return (VObj [])
  else
    p <- detect_patterns data ;;
    ret (analysis_object p).

(** *** [enhanceOCRText] *)

Definition enhanceOCRText_prompt (extractedText : string) (imageContext : option string)
  : string :=
  "You are an advanced OCR enhancement AI. Your task is to improve the accuracy and readability of extracted text from images.

Original OCR Text:
" ++ extractedText ++ "

" ++ match imageContext with
     | Some (String c r) => "Image Context: " ++ String c r
     | _ => ""
     end ++ "

Please:
1. Correct obvious OCR errors (common character misrecognitions like 0/O, 1/I/l, etc.)
2. Fix spacing and formatting issues
3. Complete truncated words based on context
4. Organize the text into logical structure (tables, lists, paragraphs)
5. Preserve all original information while improving readability

Return only the enhanced text without explanations.".

(** The argument of [hf.textGeneration]. *)
Definition enhanceOCRText_request (extractedText : string) (imageContext : option string)
  : TextGenerationArgs :=
  let prompt := enhanceOCRText_prompt extractedText imageContext in
  {| tg_model := model;
     tg_inputs := prompt;
     tg_parameters :=
       {| max_new_tokens := 2000;
          temperature := (3 # 10)%Q;
          top_p := (9 # 10)%Q;
          return_full_text := false |} |}.

Definition enhanceOCRText (extractedText : string) (imageContext : option string)
  : Eff AIResponse :=
  try_catch
    (response <- lift (textGeneration hf
                         (enhanceOCRText_request extractedText imageContext)) ;;
     ret {| success := true;
            data := Some (VStr (or_else (option_map trim (generated_text response))
                                        extractedText));
            error := None |})
    (fun error =>
       console_error "Hugging Face OCR enhancement error:" error ;;
       ret {| success := false;
              error := Some "Failed to enhance OCR text";
              data := Some (VStr extractedText) |}).

(** *** [cleanAndStructureData] *)

Definition cleanAndStructureData_prompt
  (filename fileType : string) (rows : nat) (dataPreview : string) : string :=
  "You are an expert data cleaning and structuring AI. Analyze this dataset and provide cleaning recommendations.

Dataset Info:
- Filename: " ++ filename ++ "
- Type: " ++ fileType ++ "
- Total Rows: " ++ string_of_nat rows ++ "
- Sample Data (first 10 rows):
" ++ dataPreview ++ "

Please analyze and provide:
1. Data quality issues identified
2. Recommended cleaning steps
3. Suggested column standardizations
4. Pattern detection (emails, phones, dates, addresses)
5. Data type recommendations for each column

Format your response as JSON with this structure:
{
  " ++ dq ++ "quality_issues" ++ dq ++ ": [" ++ dq ++ "issue1" ++ dq ++ ", " ++ dq ++ "issue2" ++ dq ++ "],
  " ++ dq ++ "cleaning_recommendations" ++ dq ++ ": [" ++ dq ++ "step1" ++ dq ++ ", " ++ dq ++ "step2" ++ dq ++ "],
  " ++ dq ++ "column_analysis" ++ dq ++ ": {
    " ++ dq ++ "column_name" ++ dq ++ ": {
      " ++ dq ++ "type" ++ dq ++ ": " ++ dq ++ "text|number|date|email|phone" ++ dq ++ ",
      " ++ dq ++ "issues" ++ dq ++ ": [" ++ dq ++ "issue1" ++ dq ++ "],
      " ++ dq ++ "suggestions" ++ dq ++ ": [" ++ dq ++ "suggestion1" ++ dq ++ "]
    }
  },
  " ++ dq ++ "patterns_detected" ++ dq ++ ": {
    " ++ dq ++ "emails" ++ dq ++ ": [" ++ dq ++ "column_names" ++ dq ++ "],
    " ++ dq ++ "phones" ++ dq ++ ": [" ++ dq ++ "column_names" ++ dq ++ "],
    " ++ dq ++ "dates" ++ dq ++ ": [" ++ dq ++ "column_names" ++ dq ++ "],
    " ++ dq ++ "addresses" ++ dq ++ ": [" ++ dq ++ "column_names" ++ dq ++ "]
  }
}

Return only valid JSON without explanations.".

(** The argument of [hf.textGeneration]: the prompt shows the first ten
    rows. *)
Definition cleanAndStructureData_request (data : list any) (filename fileType : string)
  : TextGenerationArgs :=
  let sampleData := slice 0 10 data in
  let dataPreview := template_of (JSON_stringify (VArr sampleData)) in
  let prompt :=
    cleanAndStructureData_prompt filename fileType (List.length data) dataPreview in
  {| tg_model := model;
     tg_inputs := prompt;
     tg_parameters :=
       {| max_new_tokens := 1500;
          temperature := (2 # 10)%Q;
          top_p := (8 # 10)%Q;
          return_full_text := false |} |}.

Definition cleanAndStructureData (data : list any) (filename fileType : string)
  : Eff AIResponse :=
  try_catch
    (response <- lift (textGeneration hf
                         (cleanAndStructureData_request data filename fileType)) ;;
     analysisResult <- lift (try_catch_pure
       (JSON_parse (or_else (generated_text response) "{}"))
       (fun _ => generateFallbackAnalysis data)) ;;
     ret {| success := true;
            data := Some analysisResult;
            error := None |})
    (fun error =>
       console_error "Hugging Face data cleaning error:" error ;;
       fallback <- lift (generateFallbackAnalysis data) ;;
       ret {| success := false;
              error := Some "Failed to analyze data";
              data := Some fallback |}).

(** *** [generateChatResponse] *)

Definition generateChatResponse_prompt (dataSummary userMessage : string) : string :=
  "You are DataMind AI, an expert data analytics assistant. You help users understand and analyze their data.

Current Dataset Context:
" ++ dataSummary ++ "

User Question: " ++ userMessage ++ "

Please provide a helpful, insightful response about the user's data. Include:
1. Direct answer to their question
2. Relevant insights from their dataset
3. Actionable recommendations
4. Specific examples from their data when relevant

Keep responses conversational but informative. Use emojis sparingly for visual appeal.".

Definition chat_default : string :=
  "I'm here to help analyze your data. Could you please rephrase your question?".

Definition chat_apology : string :=
  "I'm experiencing some technical difficulties. Please try again.".

(** The argument of [hf.textGeneration]. *)
Definition generateChatResponse_request (dataSummary userMessage : string)
  : TextGenerationArgs :=
  let prompt := generateChatResponse_prompt dataSummary userMessage in
  {| tg_model := model;
     tg_inputs := prompt;
     tg_parameters :=
       {| max_new_tokens := 1000;
          temperature := (7 # 10)%Q;
          top_p := (9 # 10)%Q;
          return_full_text := false |} |}.

Definition generateChatResponse
  (userMessage : string) (dataContext : list any) (filename : string)
  : Eff AIResponse :=
  try_catch
    (dataSummary <- lift (createDataSummary dataContext filename) ;;
     response <- lift (textGeneration hf
                         (generateChatResponse_request dataSummary userMessage)) ;;
     ret {| success := true;
            data := Some (VStr (or_else (option_map trim (generated_text response))
                                        chat_default));
            error := None |})
    (fun error =>
       console_error "Hugging Face chat error:" error ;;
       ret {| success := false;
              error := Some "Failed to generate response";
              data := Some (VStr chat_apology) |}).

(** *** [analyzeImageForOCR] *)

Definition analyzeImageForOCR_prompt : string :=
  "Analyze this image and extract all visible text with high accuracy. Pay special attention to:
1. Tables and structured data
2. Forms and labels
3. Handwritten text
4. Numbers and dates
5. Email addresses and phone numbers

Provide the extracted text in a clean, organized format.".

(** The argument of [hf.visualQuestionAnswering]. *)
Definition analyzeImageForOCR_request (imageBase64 : option string) : VQAArgs :=
  let prompt := analyzeImageForOCR_prompt in
  {| vqa_model := model;
     vqa_inputs := {| question := prompt; image := imageBase64 |} |}.

Definition analyzeImageForOCR (imageFile : File) : Eff AIResponse :=
  try_catch
    (imageBase64 <- lift (fileToBase64 imageFile) ;;
     response <- lift (visualQuestionAnswering hf
                         (analyzeImageForOCR_request imageBase64)) ;;
     ret {| success := true;
            data := Some (VStr (or_else (answer response) ""));
            error := None |})
    (fun error =>
       console_error "Hugging Face image analysis error:" error ;;
       ret {| success := false;
              error := Some "Failed to analyze image";
              data := Some (VStr "") |}).

End Service.
End HuggingFaceService.

(** ** A platform to evaluate on

    Numbers are the integers; the engine takes nothing for a date but the
    strings that [is_iso_date] recognises (the texts of the tables below are
    such dates or hold no digit) and knows no inherited property; a file
    stands for what reading it yields.  Of [JSON.parse] the theorems use the two laws of [Platform]
    only, and this instance decides exactly those: it accepts the text of
    the empty object and rejects the rest. *)
Module Reference.

Definition Number_toString (z : Z) : string :=
  NilZero.string_of_int (Z.to_int z).

Definition JSON_parse (text : string) : completion (value Z) :=
  if String.eqb text "{}" then Return (VObj []) else Throw SyntaxError.

Definition readAsDataURL (file : option string) : completion string :=
  match file with
  | Some result => Return result
  | None => Throw (HostError "ProgressEvent: error")
  end.

#[export] Instance platform : Platform := {
  number := Z;
  Number_ofNat := Z.of_nat;
  Number_toString := Number_toString;
  Number_isFinite := fun _ => true;
  Number_isTruthy := fun z => negb (Z.eqb z 0);
  JSON_parse := JSON_parse;
  JSON_parse_empty_object := eq_refl;
  JSON_parse_empty_text := eq_refl;
  Date_parse_engine_isNaN := fun _ => true;
  inherited := fun _ _ => VUndefined;
  File := option string;
  FileReader_readAsDataURL := readAsDataURL
}.

(** A client whose calls all fail. *)
Definition unreachable : HfInference := {|
  textGeneration := fun _ => Throw (HostError "fetch failed");
  visualQuestionAnswering := fun _ => Throw (HostError "fetch failed")
|}.

(** A client that answers every call with the same text. *)
Definition answering (text : string) : HfInference := {|
  textGeneration := fun _ => Return {| generated_text := Some text |};
  visualQuestionAnswering := fun _ => Return {| answer := Some text |}
|}.

(** A client whose answers lack their text. *)
Definition silent : HfInference := {|
  textGeneration := fun _ => Return {| generated_text := None |};
  visualQuestionAnswering := fun _ => Return {| answer := None |}
|}.

(** A table of two records, and the object that the fallback analysis
    builds for it. *)
Definition contacts : list any :=
  [ VObj [("email", VStr "ada@example.org"); ("joined", VStr "2024-01-15");
          ("note", VStr "prefers mail")];
    VObj [("email", VStr "bob@example.org"); ("joined", VStr "2023-12-01T08:30:00Z");
          ("note", VStr "")] ].

Definition contacts_analysis : any :=
  VObj [ ("quality_issues", VArr []);
         ("cleaning_recommendations",
            VArr [VStr "Remove empty rows"; VStr "Trim whitespace";
                  VStr "Handle missing values"]);
         ("column_analysis", VObj []);
         ("patterns_detected",
            VObj [ ("emails", VArr [VStr "email"]);
                   ("phones", VArr [VStr "joined"]);
                   ("dates", VArr [VStr "joined"]);
                   ("addresses", VArr []) ]) ].

(** The non-empty values of its columns. *)
Definition emails_sample : list any :=
  [VStr "ada@example.org"; VStr "bob@example.org"].

Definition joined_sample : list any :=
  [VStr "2024-01-15"; VStr "2023-12-01T08:30:00Z"].

Definition notes_sample : list any := [VStr "prefers mail"].

End Reference.

(** ** The four public operations as one interface *)

Module Facade.
Import HuggingFaceService.
Section Calls.
Context {P : Platform}.

(** A call of a public operation, with its arguments. *)
Inductive call : Type :=
| EnhanceOCRText (extractedText : string) (imageContext : option string)
| CleanAndStructureData (data : list any) (filename fileType : string)
| GenerateChatResponse (userMessage : string) (dataContext : list any) (filename : string)
| AnalyzeImageForOCR (imageFile : File).

Definition run (hf : HfInference) (c : call) : Eff AIResponse :=
  match c with
  | EnhanceOCRText extractedText imageContext =>
      enhanceOCRText hf extractedText imageContext
  | CleanAndStructureData data filename fileType =>
      cleanAndStructureData hf data filename fileType
  | GenerateChatResponse userMessage dataContext filename =>
      generateChatResponse hf userMessage dataContext filename
  | AnalyzeImageForOCR imageFile =>
      analyzeImageForOCR hf imageFile
  end.

(** The value each operation puts in [data] in its [catch] block. *)
Definition fallback_data (c : call) : completion any :=
  match c with
  | EnhanceOCRText extractedText _ => Return (VStr extractedText)
  | CleanAndStructureData data _ _ => generateFallbackAnalysis data
  | GenerateChatResponse _ _ _ => Return (VStr chat_apology)
  | AnalyzeImageForOCR _ => Return (VStr "")
  end.

End Calls.
End Facade.

(** ** Reading an analysis *)

(** [analysis.patterns_detected[kind]] *)
Definition detected {P : Platform} (analysis : any) (kind : string) : completion any :=
  patterns_detected <- get analysis "patterns_detected" ;;
  get patterns_detected kind.

(** What a test adds to its array: the column, or nothing. *)
Definition flagged (flag : bool) (col : string) : list string :=
  if flag then [col] else [].



(** ** Reading a data URL and a summary *)

Definition comma_free (s : string) : bool :=
  string_forallb (fun c => negb (Ascii.eqb c ",")) s.

(** The characters of a base64 payload: letters, digits, [+], [/] and the
    padding [=]. *)
Definition is_base64_char (c : ascii) : bool :=
  let n := nat_of_ascii c in
  (((65 <=? n) && (n <=? 90)) || ((97 <=? n) && (n <=? 122)) || is_digit c
   || (n =? 43) || (n =? 47) || (n =? 61))%nat.

Definition is_base64 (s : string) : bool := string_forallb is_base64_char s.

(** What follows the first comma of [s], when there is one. *)
Fixpoint after_first_comma (s : string) : option string :=
  match s with
  | EmptyString => None
  | String c s' => if Ascii.eqb c "," then Some s' else after_first_comma s'
  end.


Definition line_free (s : string) : bool :=
  string_forallb (fun c => negb (Ascii.eqb c (ascii_of_nat 10))) s.

(** [s] without its prefix [prefix]. *)
Fixpoint strip_prefix (prefix s : string) : option string :=
  match prefix, s with
  | EmptyString, _ => Some s
  | String a prefix', String b s' =>
      if Ascii.eqb a b then strip_prefix prefix' s' else None
  | String _ _, EmptyString => None
  end.

Fixpoint first_some {A B} (f : A -> option B) (l : list A) : option B :=
  match l with
  | [] => None
  | x :: rest => match f x with Some b => Some b | None => first_some f rest end
  end.

(** The text that follows [label: ] on the first line of a summary that
    starts with it. *)
Definition field (label summary : string) : option string :=
  first_some (strip_prefix (label ++ ": ")) (split (ascii_of_nat 10) summary).

(** ** The flags of a column *)

(** Whether the test [looks] adds the column to its array: the sample can be
    taken and [some] answers [true]. *)
Definition passes {P : Platform} (looks : any -> completion bool)
  (data : list any) (col : string) : bool :=
  match (sample <- HuggingFaceService.sample_of data col ;;
         HuggingFaceService.some looks sample) with
  | Return true => true
  | _ => false
  end.

Definition starts_with_white_space (s : string) : bool :=
  match s with
  | EmptyString => false
  | String c _ => is_white_space c
  end.

Fixpoint ends_with_white_space (s : string) : bool :=
  match s with
  | EmptyString => false
  | String c s' =>
      match s' with
      | EmptyString => is_white_space c
      | String _ _ => ends_with_white_space s'
      end
  end.

(** ** The singleton

    [HuggingFaceService.instance] is a static field and [getInstance] the
    only place that constructs the service.  Objects are told apart by their
    reference. *)
Module Singleton.

(** A reference to an object: its index among the constructed ones. *)
Definition ref : Type := nat.

(** The static field ([None] while it is [undefined]) and the services
    constructed so far, each with its field [model]. *)
Record statics : Type := {
  instance : option ref;
  constructed : list string
}.

(** The state when the class has been defined. *)
Definition initial : statics := {| instance := None; constructed := [] |}.

(** [new HuggingFaceService()] *)
Definition construct (s : statics) : ref * statics :=
  (List.length (constructed s),
   {| instance := instance s;
      constructed := (constructed s ++ [HuggingFaceService.model])%list |}).

(** [static getInstance()] *)
Definition getInstance (s : statics) : ref * statics :=
  match instance s with
  | None =>
      let (r, s') := construct s in
      (r, {| instance := Some r; constructed := constructed s' |})
  | Some r => (r, s)
  end.

(** [n] calls in a row: what they return, and the final state. *)
Fixpoint calls (n : nat) (s : statics) : list ref * statics :=
  match n with
  | O => ([], s)
  | S k =>
      let (r, s1) := getInstance s in
      let (rs, s2) := calls k s1 in
      (r :: rs, s2)
  end.

(** [export const huggingFaceService = HuggingFaceService.getInstance()],
    evaluated when the module is loaded. *)
Definition huggingFaceService : ref * statics := getInstance initial.

End Singleton.

(** ** More tables to evaluate on *)

Module Tables.
Import Reference.

(** A table whose column [note] is empty. *)
Definition sparse : list any :=
  [ VObj [("id", VStr "alpha"); ("note", VStr "")];
    VObj [("id", VStr "beta"); ("note", VNull)] ].

Definition sparse_analysis : any :=
  VObj [ ("quality_issues", VArr []);
         ("cleaning_recommendations",
            VArr [VStr "Remove empty rows"; VStr "Trim whitespace";
                  VStr "Handle missing values"]);
         ("column_analysis", VObj []);
         ("patterns_detected",
            VObj [ ("emails", VArr []);
                   ("phones", VArr []);
                   ("dates", VArr []);
                   ("addresses", VArr []) ]) ].


(** The cells of the column [note] of [contacts]. *)
Definition notes_cells : list any := [VStr "prefers mail"; VStr ""].

(** Two tables of twelve rows that differ in the last one. *)
Definition ten_rows : list any := repeat (VObj [("id", VStr "alpha")]) 10.

Definition long_1 : list any :=
  (ten_rows ++ [VObj [("id", VStr "kappa")]; VObj [("id", VStr "ann@example.org")]])%list.

Definition long_2 : list any :=
  (ten_rows ++ [VObj [("id", VStr "kappa")]; VNull])%list.

End Tables.

(** ** What a failed operation reports *)

(** The [error] of the response built in the [catch] block. *)
Definition failure_message {P : Platform} (c : Facade.call) : string :=
  match c with
  | Facade.EnhanceOCRText _ _ => "Failed to enhance OCR text"
  | Facade.CleanAndStructureData _ _ _ => "Failed to analyze data"
  | Facade.GenerateChatResponse _ _ _ => "Failed to generate response"
  | Facade.AnalyzeImageForOCR _ => "Failed to analyze image"
  end.

(** The label of the line written by [console.error] in the [catch] block. *)
Definition failure_label {P : Platform} (c : Facade.call) : string :=
  match c with
  | Facade.EnhanceOCRText _ _ => "Hugging Face OCR enhancement error:"
  | Facade.CleanAndStructureData _ _ _ => "Hugging Face data cleaning error:"
  | Facade.GenerateChatResponse _ _ _ => "Hugging Face chat error:"
  | Facade.AnalyzeImageForOCR _ => "Hugging Face image analysis error:"
  end.

(** * Properties *)

Import HuggingFaceService.

Ltac run_effects :=
  cbn [bind ret Monad_Eff Monad_completion lift try_catch try_catch_pure
       console_error app fst snd].

(** *** Running effects *)

Lemma bind_lift_Return {A B} (a : A) (k : A -> Eff B) :
  (x <- lift (Return a) ;; k x) = k a.
Proof. cbn. destruct (k a); reflexivity. Qed.

Section EnhanceOCRText.
Context {P : Platform}.
Variable hf : HfInference.

(** C3. When the remote call of [enhanceOCRText] throws, the operation logs
    the error and resolves to exactly
    [{success: false, error: "Failed to enhance OCR text", data: extractedText}]:
    the text that was passed in comes back unchanged. *)
Theorem enhanceOCRText_failure_passes_text_through :
  forall (extractedText : string) (imageContext : option string) (e : exn),
    textGeneration hf (enhanceOCRText_request extractedText imageContext) = Throw e ->
    enhanceOCRText hf extractedText imageContext
    = ([("Hugging Face OCR enhancement error:", e)],
       Return {| success := false;
                 data := Some (VStr extractedText);
                 error := Some "Failed to enhance OCR text" |}).
Proof.
  intros extractedText imageContext e Hcall.
  unfold enhanceOCRText. rewrite Hcall. reflexivity.
Qed.

End EnhanceOCRText.

Section CleanAndStructureData.
Context {P : Platform}.
Variable hf : HfInference.

Lemma or_else_nonempty (text d : string) :
  text <> "" -> or_else (Some text) d = text.
Proof. destruct text; [congruence | reflexivity]. Qed.

(** The text handed to [JSON.parse] when the answer carries none. *)
Lemma or_else_missing (t : option string) (d : string) :
  t = None \/ t = Some "" -> or_else t d = d.
Proof. intros [-> | ->]; reflexivity. Qed.

(** What the [try] block does once the remote call has answered. *)
Lemma cleanAndStructureData_answered :
  forall (data : list any) (filename fileType : string) (r : TextGenerationOutput),
    textGeneration hf (cleanAndStructureData_request data filename fileType) = Return r ->
    cleanAndStructureData hf data filename fileType
    = try_catch
        (analysisResult <- lift (try_catch_pure
           (JSON_parse (or_else (generated_text r) "{}"))
           (fun _ => generateFallbackAnalysis data)) ;;
         ret {| success := true; data := Some analysisResult; error := None |})
        (fun error =>
           console_error "Hugging Face data cleaning error:" error ;;
           fallback <- lift (generateFallbackAnalysis data) ;;
           ret {| success := false;
                  error := Some "Failed to analyze data";
                  data := Some fallback |}).
Proof.
  intros data filename fileType r Hcall.
  unfold cleanAndStructureData. rewrite Hcall, bind_lift_Return. reflexivity.
Qed.

(** C1, amended. When the remote call of [cleanAndStructureData] answers
    with a text that is not empty and that [JSON.parse] rejects, and the
    fallback analysis of the same data returns, the operation resolves to
    [{success: true, data: generateFallbackAnalysis(data)}] and logs
    nothing. *)
Theorem cleanAndStructureData_unparsable_text :
  forall (data : list any) (filename fileType text : string) (e : exn) (v : any),
    textGeneration hf (cleanAndStructureData_request data filename fileType)
      = Return {| generated_text := Some text |} ->
    text <> "" ->
    JSON_parse text = Throw e ->
    generateFallbackAnalysis data = Return v ->
    cleanAndStructureData hf data filename fileType
    = ([], Return {| success := true; data := Some v; error := None |}).
Proof.
  intros data filename fileType text e v Hcall Htext Hparse Hfallback.
  rewrite (cleanAndStructureData_answered _ _ _ Hcall).
  cbn [generated_text]. rewrite (or_else_nonempty _ Htext), Hparse.
  run_effects. rewrite Hfallback. reflexivity.
Qed.

(** C8. With an empty data array the fallback analysis is the empty object,
    and [cleanAndStructureData] puts it in [data] both when the remote call
    answers with a text that [JSON.parse] rejects and when the remote call
    throws. *)
Theorem cleanAndStructureData_empty_data :
  forall (filename fileType : string),
    generateFallbackAnalysis [] = Return (VObj []) /\
    (forall (text : string) (e : exn),
        textGeneration hf (cleanAndStructureData_request [] filename fileType)
          = Return {| generated_text := Some text |} ->
        JSON_parse text = Throw e ->
        cleanAndStructureData hf [] filename fileType
        = ([], Return {| success := true; data := Some (VObj []); error := None |})) /\
    (forall (e : exn),
        textGeneration hf (cleanAndStructureData_request [] filename fileType) = Throw e ->
        cleanAndStructureData hf [] filename fileType
        = ([("Hugging Face data cleaning error:", e)],
           Return {| success := false;
                     data := Some (VObj []);
                     error := Some "Failed to analyze data" |})).
Proof.
  intros filename fileType. split; [reflexivity | split].
  - intros text e Hcall Hparse.
    rewrite (cleanAndStructureData_answered _ _ _ Hcall). cbn [generated_text].
    destruct text as [| c text'].
    + cbn [or_else]. rewrite JSON_parse_empty_object. reflexivity.
    + cbn [or_else]. rewrite Hparse. reflexivity.
  - intros e Hcall. unfold cleanAndStructureData. rewrite Hcall. reflexivity.
Qed.

(** C10. When the remote call of [cleanAndStructureData] answers without
    [generated_text], or with the empty string, the operation parses the
    substituted text of the empty object and resolves to
    [{success: true, data: {}}], for every data array: the fallback analysis
    plays no part, whether it would return or throw. *)
Theorem cleanAndStructureData_missing_text :
  forall (data : list any) (filename fileType : string) (r : TextGenerationOutput),
    textGeneration hf (cleanAndStructureData_request data filename fileType) = Return r ->
    generated_text r = None \/ generated_text r = Some "" ->
    or_else (generated_text r) "{}" = "{}" /\
    cleanAndStructureData hf data filename fileType
    = ([], Return {| success := true; data := Some (VObj []); error := None |}).
Proof.
  intros data filename fileType r Hcall Hmissing.
  pose proof (or_else_missing "{}" Hmissing) as Hsubst.
  split; [exact Hsubst |].
  rewrite (cleanAndStructureData_answered _ _ _ Hcall), Hsubst.
  rewrite JSON_parse_empty_object. reflexivity.
Qed.

End CleanAndStructureData.

Section GenerateFallbackAnalysis.
Context {P : Platform}.

Lemma bind_Return_inv {A B} (m : completion A) (k : A -> completion B) (b : B) :
  (x <- m ;; k x) = Return b -> exists a, m = Return a /\ k a = Return b.
Proof. destruct m; cbn; [eauto | discriminate]. Qed.

(** [columns] is always computed: [data[0] || {}] is never nullish. *)
Lemma columns_of_returns (data : list any) :
  exists columns, columns_of data = Return columns.
Proof.
  unfold columns_of, or_empty_object.
  destruct (index data 0) as [| | b | n | s | l | l]; cbn;
    [ | | destruct b | destruct (Number_isTruthy n) | destruct s | | ];
    cbn; eauto.
Qed.

(** *** [some] *)

Lemma some_all_true {A} (predicate : A -> completion bool) (l : list A) :
  l <> [] ->
  (forall x, In x l -> predicate x = Return true) ->
  some predicate l = Return true.
Proof.
  destruct l as [| x rest]; [congruence |].
  intros _ Hall. cbn. rewrite (Hall x (or_introl eq_refl)). reflexivity.
Qed.

Lemma some_all_false {A} (predicate : A -> completion bool) (l : list A) :
  (forall x, In x l -> predicate x = Return false) ->
  some predicate l = Return false.
Proof.
  induction l as [| x rest IH]; intros Hall; [reflexivity |].
  cbn. rewrite (Hall x (or_introl eq_refl)). cbn.
  apply IH. intros y Hy. apply Hall. now right.
Qed.

(** *** The sample of a column *)

Lemma sequence_Return {A} (l : list (completion A)) (r : list A) :
  sequence l = Return r -> Forall2 (fun c a => c = Return a) l r.
Proof.
  revert r. induction l as [| c rest IH]; intros r H.
  - cbn in H. injection H as <-. constructor.
  - cbn in H. destruct c as [a | e]; [| discriminate].
    destruct (sequence rest) as [r' | e]; [| discriminate].
    cbn in H. injection H as <-. constructor; [reflexivity | now apply IH].
Qed.

Lemma slice_0_length {A} (n : nat) (l : list A) :
  List.length (slice 0 n l) <= n.
Proof. unfold slice. rewrite Nat.sub_0_r. cbn. apply firstn_le_length. Qed.

Lemma slice_0_firstn {A} (n : nat) (l : list A) : slice 0 n l = firstn n l.
Proof. unfold slice. now rewrite Nat.sub_0_r. Qed.

(** The sample of a column holds at most ten values, all of them truthy,
    each read from one of the first ten rows. *)
Lemma sample_of_spec (data : list any) (col : string) (sample : list any) :
  sample_of data col = Return sample ->
  List.length sample <= 10 /\
  forall x, In x sample ->
    ToBoolean x = true /\
    exists row, In row (slice 0 10 data) /\ get row col = Return x.
Proof.
  unfold sample_of. intros H.
  apply bind_Return_inv in H as (cells & Hcells & Hret).
  cbn in Hret. injection Hret as <-.
  apply sequence_Return in Hcells.
  assert (Hlen : List.length cells <= 10).
  { apply Forall2_length in Hcells. rewrite length_map in Hcells.
    rewrite <- Hcells. apply slice_0_length. }
  split.
  - etransitivity; [apply filter_length_le | exact Hlen].
  - intros x Hx. apply filter_In in Hx as [Hx Htruthy]. split; [exact Htruthy |].
    clear Hlen Htruthy. remember (map _ _) as gets eqn:Hgets.
    revert Hgets. generalize (slice 0 10 data) as rows.
    induction Hcells as [| c a gets' cells' Hc Hrest IH]; intros rows Hgets.
    + destruct Hx.
    + destruct rows as [| row rows']; [discriminate |].
      cbn in Hgets. injection Hgets as -> ->.
      destruct Hx as [-> | Hx].
      * exists row. split; [now left | exact Hc].
      * destruct (IH Hx rows' eq_refl) as (row' & Hin & Hget).
        exists row'. split; [now right | exact Hget].
Qed.

(** *** One column *)

Lemma detect_Return (data : list any) (p p' : patterns) (col : string) :
  detect data p col = Return p' ->
  exists sample is_email is_phone is_date,
    sample_of data col = Return sample /\
    some looks_like_email sample = Return is_email /\
    some looks_like_phone sample = Return is_phone /\
    some looks_like_date sample = Return is_date /\
    emails p' = (emails p ++ flagged is_email col)%list /\
    phones p' = (phones p ++ flagged is_phone col)%list /\
    dates p' = (dates p ++ flagged is_date col)%list /\
    addresses p' = addresses p.
Proof.
  unfold detect. intros H.
  apply bind_Return_inv in H as (sample & Hsample & H).
  apply bind_Return_inv in H as (is_email & Hemail & H).
  apply bind_Return_inv in H as (is_phone & Hphone & H).
  apply bind_Return_inv in H as (is_date & Hdate & H).
  cbn in H. injection H as <-.
  exists sample, is_email, is_phone, is_date.
  repeat (split; [eassumption |]).
  destruct is_email, is_phone, is_date; cbn; rewrite ?app_nil_r; auto.
Qed.

(** *** All the columns *)

(** What [forEach] leaves in the four arrays: [addresses] as it was, and in
    each of the others the columns whose sample has a value that passes the
    test, in the order of the columns. *)
Lemma forEach_detect (data : list any) (columns : list string) :
  forall p p' : patterns,
    forEach (detect data) columns p = Return p' ->
    addresses p' = addresses p /\
    forall col,
      (In col (emails p') <->
       In col (emails p) \/
       (In col columns /\ exists sample, sample_of data col = Return sample /\
                                     some looks_like_email sample = Return true)) /\
      (In col (phones p') <->
       In col (phones p) \/
       (In col columns /\ exists sample, sample_of data col = Return sample /\
                                     some looks_like_phone sample = Return true)) /\
      (In col (dates p') <->
       In col (dates p) \/
       (In col columns /\ exists sample, sample_of data col = Return sample /\
                                     some looks_like_date sample = Return true)).
Proof.
  induction columns as [| c rest IH]; intros p p' H.
  - cbn in H. injection H as <-. split; [reflexivity |].
    intros col. repeat split; intros; try tauto;
      match goal with
      | Hor : _ \/ _ |- _ => destruct Hor as [? | [[] _]]; assumption
      end.
  - cbn in H. apply bind_Return_inv in H as (p1 & Hstep & Hrest).
    apply detect_Return in Hstep
      as (sample & be & bp & bd & Hs & He & Hp & Hd & Eem & Eph & Eda & Ead).
    destruct (IH _ _ Hrest) as [Haddr Hcols].
    split; [congruence |].
    intros col. destruct (Hcols col) as (Hem & Hph & Hda).
    rewrite Hem, Hph, Hda, Eem, Eph, Eda, !in_app_iff. clear Hem Hph Hda.
    assert (Hflag : forall (b : bool) (pred : any -> completion bool),
               some pred sample = Return b ->
               (In col (flagged b c) <->
                c = col /\ exists sample', sample_of data col = Return sample' /\
                                       some pred sample' = Return true)).
    { intros b pred Hb. split.
      - destruct b; cbn; [| tauto]. intros [-> | []]. eauto.
      - intros [-> (sample' & Hs' & Hb')].
        rewrite Hs in Hs'. injection Hs' as <-.
        rewrite Hb in Hb'. injection Hb' as ->. now left. }
    rewrite (Hflag _ _ He), (Hflag _ _ Hp), (Hflag _ _ Hd). cbn [In].
    repeat split; intros; tauto.
Qed.

(** *** The returned object *)

Lemma generateFallbackAnalysis_Return (data : list any) (v : any) :
  generateFallbackAnalysis data = Return v ->
  data <> [] ->
  exists columns p,
    columns_of data = Return columns /\
    forEach (detect data) columns no_patterns = Return p /\
    v = analysis_object p.
Proof.
  unfold generateFallbackAnalysis. intros H Hdata.
  destruct data as [| row rows]; [congruence |]. cbn [List.length Nat.eqb] in H.
  apply bind_Return_inv in H as (p & Hp & Hv). cbn in Hv. injection Hv as <-.
  unfold detect_patterns in Hp.
  apply bind_Return_inv in Hp as (columns & Hcolumns & Hp). eauto.
Qed.

Lemma detected_analysis_object (p : patterns) :
  detected (analysis_object p) "emails" = Return (strings (emails p)) /\
  detected (analysis_object p) "phones" = Return (strings (phones p)) /\
  detected (analysis_object p) "dates" = Return (strings (dates p)) /\
  detected (analysis_object p) "addresses" = Return (strings (addresses p)).
Proof. repeat split. Qed.

(** C9, amended. In the object that [generateFallbackAnalysis] returns for a
    data array that is not empty, [patterns_detected.addresses] is the empty
    array: nothing is ever pushed to it.  (For the empty data array the
    function returns the empty object, which has no [patterns_detected].) *)
Theorem generateFallbackAnalysis_addresses_empty :
  forall (data : list any) (v : any),
    generateFallbackAnalysis data = Return v ->
    (data <> [] -> detected v "addresses" = Return (VArr [])) /\
    (data = [] -> v = VObj []).
Proof.
  intros data v H. split.
  - intros Hdata.
    destruct (generateFallbackAnalysis_Return H Hdata) as (columns & p & _ & Hp & ->).
    destruct (forEach_detect _ _ _ Hp) as [Haddr _].
    destruct (detected_analysis_object p) as (_ & _ & _ & ->).
    rewrite Haddr. reflexivity.
  - intros ->. cbn in H. now injection H as <-.
Qed.

End GenerateFallbackAnalysis.

Section Strings.

Lemma split_without_separator (sep : ascii) (s : string) :
  string_forallb (fun c => negb (Ascii.eqb c sep)) s = true ->
  split sep s = [s].
Proof.
  induction s as [| c s' IH]; cbn; [reflexivity |].
  intros H. apply andb_prop in H as [Hc Hs'].
  apply negb_true_iff in Hc. rewrite Hc, (IH Hs'). reflexivity.
Qed.

(** The first field ends at the first separator. *)
Lemma split_first_field (sep : ascii) (a b : string) :
  string_forallb (fun c => negb (Ascii.eqb c sep)) a = true ->
  split sep (a ++ String sep b) = a :: split sep b.
Proof.
  induction a as [| c a' IH]; cbn.
  - intros _. now rewrite Ascii.eqb_refl.
  - intros H. apply andb_prop in H as [Hc Ha'].
    apply negb_true_iff in Hc. rewrite Hc, (IH Ha'). reflexivity.
Qed.

Lemma string_forallb_app (p : ascii -> bool) (a b : string) :
  string_forallb p (a ++ b) = string_forallb p a && string_forallb p b.
Proof.
  induction a as [| c a' IH]; cbn; [reflexivity |].
  now rewrite IH, andb_assoc.
Qed.

Lemma after_first_comma_app (a b : string) :
  comma_free a = true -> after_first_comma (a ++ String "," b) = Some b.
Proof.
  induction a as [| c a' IH]; cbn; [reflexivity |].
  intros H. apply andb_prop in H as [Hc Ha'].
  apply negb_true_iff in Hc. rewrite Hc. exact (IH Ha').
Qed.

Lemma append_assoc (a b c : string) : (a ++ b) ++ c = a ++ (b ++ c).
Proof. induction a as [| x a' IH]; cbn; [reflexivity | now rewrite IH]. Qed.

(** A decimal numeral has digits only. *)
Lemma string_of_uint_digits (d : Decimal.uint) :
  string_forallb is_digit (NilEmpty.string_of_uint d) = true.
Proof. induction d; cbn; auto. Qed.

Lemma string_of_nat_digits (n : nat) :
  string_forallb is_digit (string_of_nat n) = true.
Proof.
  unfold string_of_nat, NilZero.string_of_uint.
  destruct (Nat.to_uint n) eqn:E; try reflexivity;
    rewrite <- E; apply string_of_uint_digits.
Qed.

Lemma string_forallb_impl (p q : ascii -> bool) (s : string) :
  (forall c, p c = true -> q c = true) ->
  string_forallb p s = true -> string_forallb q s = true.
Proof.
  intros Hpq. induction s as [| c s' IH]; cbn; [reflexivity |].
  intros H. apply andb_prop in H as [Hc Hs']. now rewrite (Hpq c Hc), IH.
Qed.

Lemma string_of_nat_line_free (n : nat) : line_free (string_of_nat n) = true.
Proof.
  apply string_forallb_impl with (p := is_digit); [| apply string_of_nat_digits].
  intros c Hc. destruct c as [[] [] [] [] [] [] [] []]; try reflexivity; discriminate.
Qed.

(** The numeral of a length reads back as the length. *)
Lemma nat_of_string_of_nat (n : nat) : nat_of_string (string_of_nat n) = Some n.
Proof.
  unfold nat_of_string, string_of_nat.
  rewrite NilZero.usu.
  - cbn. now rewrite Unsigned.of_to.
  - intros E. pose proof (Unsigned.of_to n) as Hn.
    rewrite E in Hn. cbn in Hn. subst n. discriminate E.
Qed.

End Strings.

(** *** The matcher decides the language *)

Section Regex.

Lemma append_nil_r (s : string) : s ++ "" = s.
Proof. induction s as [| c s' IH]; cbn; [reflexivity | now rewrite IH]. Qed.

Lemma append_eq_nil (s t : string) : s ++ t = "" -> s = "" /\ t = "".
Proof. destruct s; cbn; [auto | discriminate]. Qed.

Lemma nullable_lang (r : regex) : nullable r = true -> lang r "".
Proof.
  induction r as [| | p | a IHa b IHb | a IHa b IHb | a IHa]; cbn; intros H.
  - discriminate.
  - constructor.
  - discriminate.
  - apply andb_prop in H as [Ha Hb].
    change "" with ("" ++ ""). constructor; auto.
  - apply orb_prop in H as [Ha | Hb]; [apply lang_Alt_l | apply lang_Alt_r]; auto.
  - constructor.
Qed.

Lemma lang_nullable (r : regex) (s : string) :
  lang r s -> s = "" -> nullable r = true.
Proof.
  induction 1 as [| p c Hc | a b s t Ha IHa Hb IHb | a b s Ha IHa | a b s Hb IHb
                  | a | a s t Ha IHa Hs IHs]; intros E; cbn.
  - reflexivity.
  - discriminate.
  - apply append_eq_nil in E as [-> ->]. now rewrite IHa, IHb.
  - now rewrite IHa.
  - rewrite IHb by assumption. apply orb_true_r.
  - reflexivity.
  - reflexivity.
Qed.

Lemma deriv_sound (c : ascii) (r : regex) :
  forall s, lang (deriv c r) s -> lang r (String c s).
Proof.
  induction r as [| | p | a IHa b IHb | a IHa b IHb | a IHa]; cbn; intros s H.
  - inversion H.
  - inversion H.
  - destruct (p c) eqn:Hp; inversion H; subst. now constructor.
  - destruct (nullable a) eqn:Hnull.
    + inversion H as [| | | a0 b0 s0 Hl | a0 b0 s0 Hr | |]; subst.
      * inversion Hl as [| | a1 b1 s1 t1 H1 H2 | | | |]; subst.
        change (String c (s1 ++ t1)) with (String c s1 ++ t1).
        constructor; auto.
      * change (String c s) with ("" ++ String c s).
        constructor; [now apply nullable_lang | auto].
    + inversion H as [| | a1 b1 s1 t1 H1 H2 | | | |]; subst.
      change (String c (s1 ++ t1)) with (String c s1 ++ t1).
      constructor; auto.
  - inversion H; subst; [apply lang_Alt_l | apply lang_Alt_r]; auto.
  - inversion H as [| | a1 b1 s1 t1 H1 H2 | | | |]; subst.
    change (String c (s1 ++ t1)) with (String c s1 ++ t1).
    constructor; auto.
Qed.

Lemma deriv_complete (c : ascii) (r : regex) (cs : string) :
  lang r cs -> forall s, cs = String c s -> lang (deriv c r) s.
Proof.
  induction 1 as [| p c' Hc | a b s1 t Ha IHa Hb IHb | a b s1 Ha IHa | a b s1 Hb IHb
                  | a | a s1 t Ha IHa Hs IHs]; intros s E; cbn.
  - discriminate.
  - injection E as -> <-. rewrite Hc. constructor.
  - destruct s1 as [| c1 s1'].
    + cbn in E. subst t.
      rewrite (lang_nullable Ha eq_refl). apply lang_Alt_r. now apply IHb.
    + cbn in E. injection E as -> <-.
      assert (Hseq : lang (Seq (deriv c a) b) (s1' ++ t)).
      { constructor; [now apply IHa | assumption]. }
      destruct (nullable a); [now apply lang_Alt_l | assumption].
  - apply lang_Alt_l. now apply IHa.
  - apply lang_Alt_r. now apply IHb.
  - discriminate.
  - destruct s1 as [| c1 s1'].
    + cbn in E. now apply IHs.
    + cbn in E. injection E as -> <-.
      constructor; [now apply IHa | assumption].
Qed.

Lemma matches_spec (s : string) :
  forall r, matches r s = true <-> lang r s.
Proof.
  induction s as [| c s' IH]; intros r; cbn.
  - split; [apply nullable_lang | intros H; now apply (lang_nullable H)].
  - rewrite IH. split; [apply deriv_sound | intros H; now apply (deriv_complete H)].
Qed.

Lemma matches_prefix_spec (s : string) :
  forall r, matches_prefix r s = true <-> exists p q, s = p ++ q /\ lang r p.
Proof.
  induction s as [| c s' IH]; intros r; cbn.
  - rewrite orb_false_r. split.
    + intros H. exists "", "". split; [reflexivity | now apply nullable_lang].
    + intros (p & q & E & H). symmetry in E. apply append_eq_nil in E as [-> _].
      now apply (lang_nullable H).
  - rewrite orb_true_iff, IH. split.
    + intros [H | (p & q & -> & H)].
      * exists "", (String c s'). split; [reflexivity | now apply nullable_lang].
      * exists (String c p), q. split; [reflexivity | now apply deriv_sound].
    + intros (p & q & E & H). destruct p as [| c' p'].
      * left. now apply (lang_nullable H).
      * right. cbn in E. injection E as <- ->.
        exists p', q. split; [reflexivity | now apply (deriv_complete H)].
Qed.

(** [test] answers whether some substring belongs to the language. *)
Lemma test_spec (r : regex) (s : string) :
  test r s = true <-> exists a p q, s = a ++ p ++ q /\ lang r p.
Proof.
  induction s as [| c s' IH]; cbn [test].
  - rewrite orb_false_r, matches_prefix_spec. split.
    + intros (p & q & E & H). exists "", p, q. now split.
    + intros (a & p & q & E & H). symmetry in E.
      apply append_eq_nil in E as [-> E]. exists p, q. now split.
  - rewrite orb_true_iff, IH, matches_prefix_spec. split.
    + intros [(p & q & E & H) | (a & p & q & -> & H)].
      * exists "", p, q. now split.
      * exists (String c a), p, q. now split.
    + intros (a & p & q & E & H). destruct a as [| c' a'].
      * left. exists p, q. now split.
      * right. cbn in E. injection E as <- ->. exists a', p, q. now split.
Qed.

Lemma lang_Star_Class (p : ascii -> bool) (s : string) :
  string_forallb p s = true -> lang (Star (Class p)) s.
Proof.
  induction s as [| c s' IH]; cbn; intros H; [constructor |].
  apply andb_prop in H as [Hc Hs'].
  change (String c s') with (String c "" ++ s').
  constructor; [now constructor | auto].
Qed.

Lemma lang_Plus_Class (p : ascii -> bool) (s : string) :
  s <> "" -> string_forallb p s = true -> lang (Plus (Class p)) s.
Proof.
  destruct s as [| c s']; [congruence |]. cbn. intros _ H.
  apply andb_prop in H as [Hc Hs'].
  change (String c s') with (String c "" ++ s').
  constructor; [now constructor | now apply lang_Star_Class].
Qed.

(** A string [user@domain.tld] whose three parts are not empty and hold no
    white space passes the email test. *)
Lemma email_shape_passes (user domain tld : string) :
  user <> "" -> domain <> "" -> tld <> "" ->
  string_forallb non_space user = true ->
  string_forallb non_space domain = true ->
  string_forallb non_space tld = true ->
  test email_regex (user ++ "@" ++ domain ++ "." ++ tld) = true.
Proof.
  intros Hu Hd Ht Hus Hds Hts. apply test_spec.
  exists "", (user ++ "@" ++ domain ++ "." ++ tld), "".
  split; [cbn; now rewrite append_nil_r |].
  unfold email_regex.
  constructor; [now apply lang_Plus_Class |].
  change ("@" ++ domain ++ "." ++ tld) with (String "@" "" ++ domain ++ "." ++ tld).
  constructor; [now constructor |].
  constructor; [now apply lang_Plus_Class |].
  change ("." ++ tld) with (String "." "" ++ tld).
  constructor; [now constructor | now apply lang_Plus_Class].
Qed.

End Regex.

Section Helpers.
Context {P : Platform}.

Lemma fileToBase64_rejects (file : File) (e : exn) :
  FileReader_readAsDataURL file = Throw e -> fileToBase64 file = Throw e.
Proof. unfold fileToBase64. now intros ->. Qed.

Lemma is_base64_comma_free (s : string) : is_base64 s = true -> comma_free s = true.
Proof.
  apply string_forallb_impl. intros c Hc.
  destruct c as [[] [] [] [] [] [] [] []]; try reflexivity; discriminate.
Qed.

(** Past a second comma the code and the words part: the code stops at it.
    No data URL with a base64 payload has one. *)
Remark fileToBase64_second_comma :
  forall (file : File) (a b c : string),
    FileReader_readAsDataURL file = Return (a ++ "," ++ b ++ "," ++ c) ->
    comma_free a = true ->
    comma_free b = true ->
    fileToBase64 file = Return (Some b) /\
    after_first_comma (a ++ "," ++ b ++ "," ++ c) = Some (b ++ "," ++ c).
Proof.
  intros file a b c Hread Ha Hb. split.
  - unfold fileToBase64. rewrite Hread. cbn [bind ret Monad_completion].
    change (a ++ "," ++ b ++ "," ++ c) with (a ++ String "," (b ++ String "," c)).
    rewrite (split_first_field _ _ _ Ha), (split_first_field _ _ _ Hb).
    reflexivity.
  - now apply (after_first_comma_app a (b ++ "," ++ c)).
Qed.

(** When the file reader yields a data URL
    [data:<media type>;base64,<payload>] (a media type without comma, a
    payload in the base64 alphabet), [fileToBase64] resolves to the payload,
    which is what follows the first comma of the URL. *)
Lemma fileToBase64_strips_prefix :
  forall (file : File) (mediatype payload : string),
    FileReader_readAsDataURL file
      = Return ("data:" ++ mediatype ++ ";base64," ++ payload) ->
    comma_free mediatype = true ->
    is_base64 payload = true ->
    fileToBase64 file = Return (Some payload) /\
    after_first_comma ("data:" ++ mediatype ++ ";base64," ++ payload) = Some payload.
Proof.
  intros file mediatype payload Hread Hmedia Hbase64.
  pose proof (is_base64_comma_free _ Hbase64) as Hpayload.
  assert (E : "data:" ++ mediatype ++ ";base64," ++ payload
              = ("data:" ++ mediatype ++ ";base64") ++ String "," payload).
  { rewrite !append_assoc. reflexivity. }
  assert (Hprefix : comma_free ("data:" ++ mediatype ++ ";base64") = true).
  { unfold comma_free in *. rewrite !string_forallb_app, Hmedia. reflexivity. }
  split.
  - unfold fileToBase64. rewrite Hread. cbn [bind ret Monad_completion].
    rewrite E, (split_first_field _ _ _ Hprefix).
    rewrite (split_without_separator _ _ Hpayload). reflexivity.
  - rewrite E. now apply after_first_comma_app.
Qed.





(** C7. [createDataSummary] of the empty array is the string
    [No data available].  For any other array the summary is the block
    [Dataset: / Rows: / Columns: / Sample Data:] in which the number of rows
    is the numeral of [data.length] (it reads back as that length and, the
    file name holding no line break, it is the [Rows] field of the text),
    the columns are the keys of the first record joined with a comma and a
    space, and the preview is the JSON text of the first three records at
    most. *)
Theorem createDataSummary_shape :
  forall (data : list any) (filename : string),
    createDataSummary [] filename = Return "No data available" /\
    (data <> [] ->
     exists (columns : list string) (summary : string),
       columns_of data = Return columns /\
       createDataSummary data filename = Return summary /\
       summary = "Dataset: " ++ filename ++ LF
                 ++ "Rows: " ++ string_of_nat (List.length data) ++ LF
                 ++ "Columns: " ++ join ", " columns ++ LF
                 ++ "Sample Data: "
                 ++ template_of (JSON_stringify (VArr (firstn 3 data))) /\
       nat_of_string (string_of_nat (List.length data)) = Some (List.length data) /\
       List.length (firstn 3 data) <= 3 /\
       (forall properties, index data 0 = VObj properties ->
                           columns = map fst properties) /\
       (line_free filename = true ->
        field "Rows" summary = Some (string_of_nat (List.length data)))).
Proof.
  intros data filename. split; [reflexivity |].
  intros Hdata. destruct (columns_of_returns data) as [columns Hcolumns].
  exists columns. eexists. split; [exact Hcolumns |].
  split; [| split; [reflexivity |]].
  - unfold createDataSummary.
    destruct data as [| row rows]; [congruence |]. cbn [List.length Nat.eqb].
    rewrite Hcolumns. cbn [bind ret Monad_completion].
    rewrite slice_0_firstn. reflexivity.
  - split; [apply nat_of_string_of_nat |].
    split; [apply firstn_le_length |].
    split.
    + intros properties Hfirst. unfold columns_of in Hcolumns.
      rewrite Hfirst in Hcolumns. cbn in Hcolumns. now injection Hcolumns as <-.
    + intros Hname. unfold field.
      set (n := string_of_nat (List.length data)).
      set (rest := "Columns: " ++ _).
      change (first_some (strip_prefix "Rows: ")
                (split (ascii_of_nat 10)
                   (("Dataset: " ++ filename)
                    ++ String (ascii_of_nat 10)
                         (("Rows: " ++ n) ++ String (ascii_of_nat 10) rest)))
              = Some n).
      rewrite split_first_field.
      2:{ change (line_free ("Dataset: " ++ filename) = true).
          unfold line_free in *. now rewrite string_forallb_app, Hname. }
      rewrite split_first_field.
      2:{ rewrite string_forallb_app. apply andb_true_intro.
          split; [reflexivity | apply string_of_nat_line_free]. }
      reflexivity.
Qed.

End Helpers.

Section Totality.
Context {P : Platform}.

(** [createDataSummary] never throws. *)
Lemma createDataSummary_returns (data : list any) (filename : string) :
  exists summary, createDataSummary data filename = Return summary.
Proof.
  unfold createDataSummary.
  destruct (List.length data =? 0)%nat; [eauto |].
  destruct (columns_of_returns data) as [columns ->]. cbn. eauto.
Qed.





End Totality.

Section PublicOperations.
Import Facade.
Context {P : Platform}.
Variable hf : HfInference.

(** [enhanceOCRText] always resolves. *)
Lemma enhanceOCRText_resolves (extractedText : string) (imageContext : option string) :
  exists out r, enhanceOCRText hf extractedText imageContext = (out, Return r).
Proof.
  unfold enhanceOCRText.
  destruct (textGeneration hf _) as [r | e]; cbn; eauto.
Qed.

(** [generateChatResponse] always resolves. *)
Lemma generateChatResponse_resolves
  (userMessage : string) (dataContext : list any) (filename : string) :
  exists out r, generateChatResponse hf userMessage dataContext filename = (out, Return r).
Proof.
  unfold generateChatResponse.
  destruct (createDataSummary_returns dataContext filename) as [summary ->].
  rewrite bind_lift_Return.
  destruct (textGeneration hf _) as [r | e]; cbn; eauto.
Qed.

(** [analyzeImageForOCR] always resolves: a failed read and a failed call
    end in the same [catch] block. *)
Lemma analyzeImageForOCR_resolves (imageFile : File) :
  exists out r, analyzeImageForOCR hf imageFile = (out, Return r).
Proof.
  unfold analyzeImageForOCR.
  destruct (fileToBase64 imageFile) as [b | e]; [| cbn; eauto].
  rewrite bind_lift_Return.
  destruct (visualQuestionAnswering hf _) as [r | e]; cbn; eauto.
Qed.


(** When the fallback analysis throws, [cleanAndStructureData] rejects as
    soon as it needs it: the [catch] block calls it outside any [try]. *)
Lemma cleanAndStructureData_rejects_with_fallback
  (data : list any) (filename fileType : string) (e e' : exn) :
  generateFallbackAnalysis data = Throw e' ->
  textGeneration hf (cleanAndStructureData_request data filename fileType) = Throw e ->
  cleanAndStructureData hf data filename fileType
  = ([("Hugging Face data cleaning error:", e)], Throw e').
Proof.
  intros Hfallback Hcall. unfold cleanAndStructureData.
  rewrite Hcall. cbn. rewrite Hfallback. reflexivity.
Qed.

(** The same when the call answers with a text that is not empty and that
    [JSON.parse] rejects: the inner [catch] throws, the outer one logs that
    and throws again. *)
Lemma cleanAndStructureData_rejects_after_unparsable_text
  (data : list any) (filename fileType text : string) (e e' : exn) :
  generateFallbackAnalysis data = Throw e' ->
  textGeneration hf (cleanAndStructureData_request data filename fileType)
    = Return {| generated_text := Some text |} ->
  text <> "" ->
  JSON_parse text = Throw e ->
  cleanAndStructureData hf data filename fileType
  = ([("Hugging Face data cleaning error:", e')], Throw e').
Proof.
  intros Hfallback Hcall Htext Hparse.
  rewrite (cleanAndStructureData_answered _ _ _ _ Hcall).
  cbn [generated_text]. rewrite (or_else_nonempty _ Htext), Hparse.
  run_effects. rewrite Hfallback. reflexivity.
Qed.

(** C4. Whenever a public operation resolves to a response with
    [success = false], the [data] of the response is present and is the
    fallback of that operation: the text passed in, the fallback analysis of
    the data, the apology, or the empty string. *)
Theorem failure_carries_fallback :
  forall (c : call) (out : list console_line) (r : AIResponse),
    run hf c = (out, Return r) ->
    success r = false ->
    exists v, fallback_data c = Return v /\ data r = Some v.
Proof.
  intros c out r Hrun Hfailed.
  destruct c as [text context | rows filename fileType | message rows filename | file];
    cbn [run fallback_data] in *.
  - unfold enhanceOCRText in Hrun.
    destruct (textGeneration hf _) as [r0 | e]; cbn in Hrun;
      injection Hrun as <- <-; [discriminate | eauto].
  - unfold cleanAndStructureData in Hrun.
    destruct (textGeneration hf _) as [r0 | e].
    + rewrite bind_lift_Return in Hrun.
      destruct (JSON_parse _) as [parsed | e]; cbn in Hrun.
      * injection Hrun as <- <-. discriminate.
      * destruct (generateFallbackAnalysis rows) as [v | e']; cbn in Hrun.
        -- injection Hrun as <- <-. discriminate.
        -- discriminate.
    + cbn in Hrun.
      destruct (generateFallbackAnalysis rows) as [v | e']; cbn in Hrun.
      * injection Hrun as <- <-. eauto.
      * discriminate.
  - unfold generateChatResponse in Hrun.
    destruct (createDataSummary_returns rows filename) as [summary Hsummary].
    rewrite Hsummary, bind_lift_Return in Hrun.
    destruct (textGeneration hf _) as [r0 | e]; cbn in Hrun;
      injection Hrun as <- <-; [discriminate | eauto].
  - unfold analyzeImageForOCR in Hrun.
    destruct (fileToBase64 file) as [b | e].
    + rewrite bind_lift_Return in Hrun.
      destruct (visualQuestionAnswering hf _) as [r0 | e]; cbn in Hrun;
        injection Hrun as <- <-; [discriminate | eauto].
    + cbn in Hrun. injection Hrun as <- <-. eauto.
Qed.

End PublicOperations.

Section Rejection.
Context {P : Platform}.
Variable hf : HfInference.

Lemma generateFallbackAnalysis_null_row (key : string) (cell : any) :
  generateFallbackAnalysis [VObj [(key, cell)]; VNull] = Throw TypeError.
Proof.
  unfold generateFallbackAnalysis, detect_patterns, columns_of.
  cbn. rewrite String.eqb_refl. reflexivity.
Qed.

(** A cell that [String] cannot print has the same effect: a record with an
    own property [toString] (which JSON data cannot make callable). *)
Lemma generateFallbackAnalysis_unprintable_cell (key : string) (x : any) :
  generateFallbackAnalysis [VObj [(key, VObj [("toString", x)])]] = Throw TypeError.
Proof.
  unfold generateFallbackAnalysis, detect_patterns, columns_of.
  cbn. rewrite String.eqb_refl. reflexivity.
Qed.

(** C2, where the code departs from it.  With a first record that has a
    key and a second row that is [null], the fallback analysis throws a
    [TypeError] at [row[col]]; when the remote call throws as well, the
    [catch] block of [cleanAndStructureData] calls the fallback analysis
    outside any [try], and the operation rejects with that [TypeError]
    instead of resolving to an [AIResponse]. *)
Theorem cleanAndStructureData_rejects_on_null_row :
  forall (key : string) (cell : any) (filename fileType : string) (e : exn),
    textGeneration hf
      (cleanAndStructureData_request [VObj [(key, cell)]; VNull] filename fileType)
      = Throw e ->
    cleanAndStructureData hf [VObj [(key, cell)]; VNull] filename fileType
    = ([("Hugging Face data cleaning error:", e)], Throw TypeError).
Proof.
  intros key cell filename fileType e Hcall.
  apply cleanAndStructureData_rejects_with_fallback; [| exact Hcall].
  apply generateFallbackAnalysis_null_row.
Qed.

End Rejection.

(** * Further properties of the code *)

(** ** The two expressions of the fallback analysis *)

Section Expressions.

Lemma lang_Star_Class_inv (p : ascii -> bool) (r : regex) (s : string) :
  lang r s -> r = Star (Class p) -> string_forallb p s = true.
Proof.
  induction 1 as [| q c Hc | a b s t Ha IHa Hb IHb | a b s Ha IHa | a b s Hb IHb
                  | a | a s t Ha IHa Hs IHs]; intros E; try discriminate.
  - reflexivity.
  - injection E as ->. rewrite string_forallb_app, (IHs eq_refl), andb_true_r.
    inversion Ha; subst. cbn. now rewrite H0.
Qed.

Lemma lang_Class_inv (p : ascii -> bool) (s : string) :
  lang (Class p) s -> exists c, s = String c "" /\ p c = true.
Proof. intros H. inversion H; subst. eauto. Qed.

Lemma lang_Plus_Class_iff (p : ascii -> bool) (s : string) :
  lang (Plus (Class p)) s <-> s <> "" /\ string_forallb p s = true.
Proof.
  split.
  - intros H. inversion H as [| | a b s1 t H1 H2 | | | |]; subst.
    apply lang_Class_inv in H1 as (c & -> & Hc).
    split; [discriminate |]. cbn. rewrite Hc.
    exact (lang_Star_Class_inv H2 eq_refl).
  - intros [Hne Hall]. now apply lang_Plus_Class.
Qed.

Lemma lang_Opt_inv (r : regex) (s : string) :
  lang (Opt r) s -> lang r s \/ s = "".
Proof. intros H. inversion H as [| | | a b s0 Hl | a b s0 Hr | |]; subst; [now left |]. inversion Hr. now right. Qed.

Lemma lang_Upto_nil (k : nat) (r : regex) : lang (Upto k r) "".
Proof. destruct k; cbn; [constructor | apply lang_Alt_r; constructor]. Qed.

Lemma lang_Rep_Class (p : ascii -> bool) (k : nat) (s : string) :
  string_forallb p s = true -> lang (Rep (String.length s) k (Class p)) s.
Proof.
  induction s as [| c s' IH]; cbn; intros H; [apply lang_Upto_nil |].
  apply andb_prop in H as [Hc Hs'].
  change (String c s') with (String c "" ++ s').
  constructor; [now constructor | auto].
Qed.

Lemma lang_Rep_Class_inv (p : ascii -> bool) (n k : nat) :
  forall s, lang (Rep n k (Class p)) s ->
            exists run rest, s = run ++ rest /\ String.length run = n /\
                             string_forallb p run = true.
Proof.
  induction n as [| n IH]; intros s H.
  - exists "", s. repeat split.
  - cbn in H. inversion H as [| | a b s1 t H1 H2 | | | |]; subst.
    apply lang_Class_inv in H1 as (c & -> & Hc).
    destruct (IH _ H2) as (run & rest & -> & Hlen & Hall).
    exists (String c run), rest. cbn. rewrite Hc, Hall, Hlen. repeat split.
Qed.

(** X1. [/\S+@\S+\.\S+/.test(s)] is [true] exactly when [s] holds, somewhere,
    three blocks of characters other than white space, none of them empty,
    with an [@] between the first two and a dot between the last two. *)
Theorem email_test_iff :
  forall s : string,
    test email_regex s = true <->
    exists before user domain tld rest,
      s = before ++ user ++ "@" ++ domain ++ "." ++ tld ++ rest /\
      user <> "" /\ domain <> "" /\ tld <> "" /\
      string_forallb non_space user = true /\
      string_forallb non_space domain = true /\
      string_forallb non_space tld = true.
Proof.
  intros s. rewrite test_spec. split.
  - intros (a & p & q & -> & H). unfold email_regex in H.
    inversion H as [| | r1 r2 user t1 Hu H1 | | | |]; subst.
    inversion H1 as [| | r1 r2 at_ t2 Hat H2 | | | |]; subst.
    inversion H2 as [| | r1 r2 domain t3 Hd H3 | | | |]; subst.
    inversion H3 as [| | r1 r2 dot tld Hdot Ht | | | |]; subst.
    apply lang_Class_inv in Hat as (c1 & -> & Hc1).
    apply lang_Class_inv in Hdot as (c2 & -> & Hc2).
    apply Ascii.eqb_eq in Hc1, Hc2. subst c1 c2.
    apply lang_Plus_Class_iff in Hu as [Hu1 Hu2].
    apply lang_Plus_Class_iff in Hd as [Hd1 Hd2].
    apply lang_Plus_Class_iff in Ht as [Ht1 Ht2].
    exists a, user, domain, tld, q. repeat split; try assumption.
    rewrite !append_assoc. reflexivity.
  - intros (a & user & domain & tld & b & -> & Hu & Hd & Ht & Hus & Hds & Hts).
    exists a, (user ++ "@" ++ domain ++ "." ++ tld), b. split.
    + rewrite !append_assoc. reflexivity.
    + unfold email_regex.
      constructor; [now apply lang_Plus_Class |].
      change ("@" ++ domain ++ "." ++ tld) with (String "@" "" ++ domain ++ "." ++ tld).
      constructor; [constructor; apply Ascii.eqb_refl |].
      constructor; [now apply lang_Plus_Class |].
      change ("." ++ tld) with (String "." "" ++ tld).
      constructor; [constructor; apply Ascii.eqb_refl | now apply lang_Plus_Class].
Qed.

(** Seven characters of the class in a row are enough. *)
Lemma phone_run_passes (before run rest : string) :
  String.length run = 7 ->
  string_forallb phone_char run = true ->
  test phone_regex (before ++ run ++ rest) = true.
Proof.
  intros Hlen Hall. apply test_spec.
  exists before, run, rest. split; [reflexivity |].
  unfold phone_regex.
  change run with ("" ++ "" ++ run).
  constructor; [apply lang_Alt_r; constructor |].
  constructor; [apply lang_Alt_r; constructor |].
  rewrite <- Hlen. now apply lang_Rep_Class.
Qed.

(** X2. [/[\+]?[1-9]?[\d\s\-\(\)]{7,15}/.test(s)] is [true] exactly when [s]
    holds seven characters in a row that are digits, white space, hyphens or
    parentheses: the optional sign and leading digit, and the upper bound of
    fifteen, never decide. *)
Theorem phone_test_iff :
  forall s : string,
    test phone_regex s = true <->
    exists before run rest,
      s = before ++ run ++ rest /\
      String.length run = 7 /\
      string_forallb phone_char run = true.
Proof.
  intros s. split.
  - intros H. apply test_spec in H as (a & p & q & -> & H). unfold phone_regex in H.
    inversion H as [| | r1 r2 sign t1 Hsign H1 | | | |]; subst.
    inversion H1 as [| | r1 r2 lead t2 Hlead H2 | | | |]; subst.
    apply (@lang_Rep_Class_inv phone_char 7 8) in H2 as (run & rest & -> & Hlen & Hall).
    exists (a ++ sign ++ lead), run, (rest ++ q).
    split; [| now split].
    rewrite !append_assoc. reflexivity.
  - intros (a & run & b & -> & Hlen & Hall).
    now apply phone_run_passes.
Qed.

End Expressions.

(** ** More on the fallback analysis *)

Section FallbackAnalysis.
Context {P : Platform}.

Lemma digits_prefix (n : nat) :
  forall acc s v rest,
    digits n acc s = Some (v, rest) ->
    exists pre, s = pre ++ rest /\ String.length pre = n /\
                string_forallb is_digit pre = true.
Proof.
  induction n as [| n IH]; intros acc s v rest H; cbn in H.
  - injection H as _ <-. now exists "".
  - destruct s as [| c s']; [discriminate |].
    unfold digit_value in H. destruct (is_digit c) eqn:Hc; [| discriminate].
    destruct (IH _ _ _ _ H) as (pre & -> & Hlen & Hall).
    exists (String c pre). cbn. now rewrite Hc, Hall, Hlen.
Qed.

Lemma expect_inv (c : ascii) (s s' : string) :
  expect c s = Some s' -> s = String c s'.
Proof.
  destruct s as [| c' r]; cbn; [discriminate |].
  destruct (Ascii.eqb c c') eqn:E; [| discriminate].
  apply Ascii.eqb_eq in E. now intros [= <-]; subst.
Qed.

Lemma length_append (a b : string) :
  String.length (a ++ b) = String.length a + String.length b.
Proof. induction a as [| c a' IH]; cbn; [reflexivity | now rewrite IH]. Qed.

Lemma is_digit_phone_char (c : ascii) : is_digit c = true -> phone_char c = true.
Proof. unfold phone_char. now intros ->. Qed.

(** An ISO date string starts with [YYYY-MM], seven characters of the phone
    class. *)
Lemma iso_date_passes_phone_test (s : string) :
  is_iso_date s = true -> test phone_regex s = true.
Proof.
  unfold is_iso_date. intros H.
  destruct (digits 4 0 s) as [[y s1] |] eqn:Hy; [| discriminate].
  destruct (expect "-" s1) as [s2 |] eqn:H1; [| discriminate].
  destruct (digits 2 0 s2) as [[m s3] |] eqn:Hm; [| discriminate].
  clear H.
  apply digits_prefix in Hy as (year & -> & Hylen & Hyall).
  apply expect_inv in H1 as ->.
  apply digits_prefix in Hm as (month & -> & Hmlen & Hmall).
  assert (E : year ++ String "-" (month ++ s3) = "" ++ (year ++ "-" ++ month) ++ s3).
  { cbn. rewrite !append_assoc. reflexivity. }
  rewrite E. apply phone_run_passes.
  - rewrite !length_append, Hylen, Hmlen. reflexivity.
  - rewrite !string_forallb_app.
    rewrite (string_forallb_impl _ _ _ is_digit_phone_char Hyall).
    rewrite (string_forallb_impl _ _ _ is_digit_phone_char Hmall).
    reflexivity.
Qed.

Lemma some_found {A} (predicate : A -> completion bool) (l : list A) (b : bool) (x : A) :
  some predicate l = Return b ->
  In x l -> predicate x = Return true -> b = true.
Proof.
  induction l as [| y rest IH]; intros Hsome Hin Hx; [destruct Hin |].
  cbn in Hsome. destruct (predicate y) as [[|] | e] eqn:Hy; cbn in Hsome.
  - now injection Hsome.
  - destruct Hin as [-> | Hin]; [congruence | auto].
  - discriminate.
Qed.

Lemma some_nil {A} (predicate : A -> completion bool) :
  some predicate [] = Return false.
Proof. reflexivity. Qed.

(** When [forEach] returns, the body has returned on each column. *)
Lemma forEach_detect_column (data : list any) (columns : list string) (col : string) :
  forall p p',
    forEach (detect data) columns p = Return p' ->
    In col columns ->
    exists p0 p1, detect data p0 col = Return p1.
Proof.
  induction columns as [| c rest IH]; intros p p' H Hin; [destruct Hin |].
  cbn [forEach] in H. apply bind_Return_inv in H as (p1 & Hstep & Hrest).
  destruct Hin as [-> | Hin]; eauto.
Qed.

Lemma passes_flag (looks : any -> completion bool) (data : list any) (col : string)
  (sample : list any) (b : bool) :
  sample_of data col = Return sample ->
  some looks sample = Return b ->
  passes looks data col = b.
Proof. unfold passes. intros -> Hb. cbn. rewrite Hb. now destruct b. Qed.

(** The arrays after [forEach]: what was there, then the columns that pass,
    in their order. *)
Lemma forEach_detect_filter (data : list any) (columns : list string) :
  forall p p',
    forEach (detect data) columns p = Return p' ->
    emails p' = (emails p ++ filter (passes looks_like_email data) columns)%list /\
    phones p' = (phones p ++ filter (passes looks_like_phone data) columns)%list /\
    dates p' = (dates p ++ filter (passes looks_like_date data) columns)%list.
Proof.
  induction columns as [| c rest IH]; intros p p' H.
  - cbn in H. injection H as <-. cbn. now rewrite !app_nil_r.
  - cbn [forEach] in H. apply bind_Return_inv in H as (p1 & Hstep & Hrest).
    apply detect_Return in Hstep
      as (sample & be & bp & bd & Hs & He & Hp & Hd & Eem & Eph & Eda & _).
    destruct (IH _ _ Hrest) as (IHe & IHp & IHd).
    rewrite IHe, IHp, IHd, Eem, Eph, Eda. cbn [filter].
    rewrite (passes_flag _ _ _ Hs He), (passes_flag _ _ _ Hs Hp),
      (passes_flag _ _ _ Hs Hd).
    rewrite <- !app_assoc. destruct be, bp, bd; repeat split.
Qed.

(** X3. When the fallback analysis returns for a data array that is not
    empty, each of [emails], [phones] and [dates] is the list of the columns
    that pass its test, in the order of the columns.  So every name listed is
    a key of the first record, and none is listed twice in one array (the
    keys of an object being distinct). *)
Theorem generateFallbackAnalysis_lists :
  forall (data : list any) (v : any) (columns : list string),
    generateFallbackAnalysis data = Return v ->
    data <> [] ->
    columns_of data = Return columns ->
    exists es ps ds,
      detected v "emails" = Return (strings es) /\
      detected v "phones" = Return (strings ps) /\
      detected v "dates" = Return (strings ds) /\
      es = filter (passes looks_like_email data) columns /\
      ps = filter (passes looks_like_phone data) columns /\
      ds = filter (passes looks_like_date data) columns /\
      (forall col, In col es \/ In col ps \/ In col ds -> In col columns) /\
      (NoDup columns -> NoDup es /\ NoDup ps /\ NoDup ds).
Proof.
  intros data v columns Hv Hdata Hcolumns.
  destruct (generateFallbackAnalysis_Return Hv Hdata) as (columns' & p & Hc' & Hp & ->).
  rewrite Hcolumns in Hc'. injection Hc' as <-.
  destruct (forEach_detect_filter _ _ _ Hp) as (Ee & Ep & Ed). cbn in Ee, Ep, Ed.
  destruct (detected_analysis_object p) as (De & Dp & Dd & _).
  exists (emails p), (phones p), (dates p).
  repeat (split; [assumption |]). split.
  - rewrite Ee, Ep, Ed. intros col [H | [H | H]]; apply filter_In in H; tauto.
  - rewrite Ee, Ep, Ed. intros Hnd. repeat split; now apply NoDup_filter.
Qed.

(** X4. A column in whose sample an ISO date string occurs is listed in
    [dates] and, the string starting with seven digits and hyphens, in
    [phones] as well. *)
Theorem generateFallbackAnalysis_iso_date_is_phone :
  forall (data : list any) (v : any) (columns : list string) (col : string)
         (sample : list any) (s : string),
    generateFallbackAnalysis data = Return v ->
    columns_of data = Return columns ->
    In col columns ->
    sample_of data col = Return sample ->
    In (VStr s) sample ->
    is_iso_date s = true ->
    exists ps ds,
      detected v "phones" = Return (strings ps) /\
      detected v "dates" = Return (strings ds) /\
      In col ps /\ In col ds.
Proof.
  intros data v columns col sample s Hv Hcolumns Hcol Hsample Hin Hiso.
  assert (Hdata : data <> []).
  { intros ->. cbn in Hcolumns. injection Hcolumns as <-. destruct Hcol. }
  destruct (generateFallbackAnalysis_Return Hv Hdata) as (columns' & p & Hc' & Hp & ->).
  rewrite Hcolumns in Hc'. injection Hc' as <-.
  destruct (forEach_detect_column _ _ col _ Hp Hcol) as (p0 & p1 & Hstep).
  apply detect_Return in Hstep
    as (sample' & be & bp & bd & Hs & _ & Hphone & Hdate & _).
  rewrite Hsample in Hs. injection Hs as <-.
  assert (bp = true) as ->.
  { eapply some_found; [exact Hphone | exact Hin |].
    unfold looks_like_phone. cbn.
    now rewrite (iso_date_passes_phone_test _ Hiso). }
  assert (bd = true) as ->.
  { eapply some_found; [exact Hdate | exact Hin |].
    unfold looks_like_date, Date_parse_isNaN. cbn.
    now rewrite Hiso. }
  destruct (forEach_detect _ _ _ Hp) as [_ Hlists].
  destruct (Hlists col) as (_ & Hph & Hda).
  destruct (detected_analysis_object p) as (_ & Dp & Dd & _).
  exists (phones p), (dates p). repeat (split; [assumption |]). split.
  - apply Hph. right. eauto.
  - apply Hda. right. eauto.
Qed.

(** X5. A column whose cells in the first ten rows are all falsy (empty
    string, zero, [false], [null], [undefined]) has an empty sample and is
    listed in none of the arrays. *)
Theorem generateFallbackAnalysis_empty_column :
  forall (data : list any) (v : any) (col : string),
    generateFallbackAnalysis data = Return v ->
    data <> [] ->
    (forall row x, In row (slice 0 10 data) -> get row col = Return x ->
                   ToBoolean x = false) ->
    exists es ps ds,
      detected v "emails" = Return (strings es) /\
      detected v "phones" = Return (strings ps) /\
      detected v "dates" = Return (strings ds) /\
      ~ In col es /\ ~ In col ps /\ ~ In col ds.
Proof.
  intros data v col Hv Hdata Hfalsy.
  destruct (generateFallbackAnalysis_Return Hv Hdata) as (columns & p & _ & Hp & ->).
  destruct (forEach_detect _ _ _ Hp) as [_ Hlists].
  destruct (Hlists col) as (Hem & Hph & Hda).
  destruct (detected_analysis_object p) as (De & Dp & Dd & _).
  exists (emails p), (phones p), (dates p).
  repeat (split; [assumption |]).
  assert (Hempty : forall sample, sample_of data col = Return sample -> sample = []).
  { intros sample Hsample.
    destruct (sample_of_spec _ _ Hsample) as [_ Hspec].
    destruct sample as [| x rest]; [reflexivity |].
    destruct (Hspec x (or_introl eq_refl)) as (Htruthy & row & Hrow & Hget).
    rewrite (Hfalsy _ _ Hrow Hget) in Htruthy. discriminate. }
  repeat split; intros Hin;
    [apply Hem in Hin | apply Hph in Hin | apply Hda in Hin];
    destruct Hin as [[] | (_ & sample & Hsample & Hsome)];
    rewrite (Hempty _ Hsample) in Hsome; discriminate.
Qed.

Lemma some_true_iff {A} (predicate : A -> completion bool) (l : list A) (b : bool) :
  some predicate l = Return b ->
  (b = true <-> exists x, In x l /\ predicate x = Return true).
Proof.
  intros Hsome. split.
  - intros ->. induction l as [| y rest IH]; [discriminate |].
    cbn in Hsome. destruct (predicate y) as [[|] | e] eqn:Hy; cbn in Hsome.
    + exists y. split; [now left | exact Hy].
    + destruct (IH Hsome) as (x & Hin & Hx). exists x. split; [now right | exact Hx].
    + discriminate.
  - intros (x & Hin & Hx). eapply some_found; eassumption.
Qed.

Lemma looks_like_email_true (x : any) :
  looks_like_email x = Return true <->
  exists s, ToString x = Return s /\ test email_regex s = true.
Proof.
  unfold looks_like_email. destruct (ToString x) as [s | e]; cbn.
  - split; [intros [= H]; eauto | intros (s' & [= <-] & ->); reflexivity].
  - split; [discriminate | intros (s' & [=] & _)].
Qed.

Lemma looks_like_phone_true (x : any) :
  looks_like_phone x = Return true <->
  exists s, ToString x = Return s /\ test phone_regex s = true.
Proof.
  unfold looks_like_phone. destruct (ToString x) as [s | e]; cbn.
  - split; [intros [= H]; eauto | intros (s' & [= <-] & ->); reflexivity].
  - split; [discriminate | intros (s' & [=] & _)].
Qed.

Lemma looks_like_date_true (x : any) :
  looks_like_date x = Return true <->
  exists s, ToString x = Return s /\ Date_parse_isNaN s = false.
Proof.
  unfold looks_like_date. destruct (ToString x) as [s | e]; cbn.
  - split.
    + intros [= H]. apply negb_true_iff in H. eauto.
    + intros (s' & [= <-] & ->). reflexivity.
  - split; [discriminate | intros (s' & [=] & _)].
Qed.

(** X6. When the fallback analysis returns, a column is listed in an array
    exactly when one of its sampled values passes the test of that array:
    one value is enough, whatever the others are. *)
Theorem generateFallbackAnalysis_one_value_is_enough :
  forall (data : list any) (v : any) (columns : list string) (col : string)
         (sample : list any),
    generateFallbackAnalysis data = Return v ->
    columns_of data = Return columns ->
    In col columns ->
    sample_of data col = Return sample ->
    exists es ps ds,
      detected v "emails" = Return (strings es) /\
      detected v "phones" = Return (strings ps) /\
      detected v "dates" = Return (strings ds) /\
      (In col es <->
       exists x s, In x sample /\ ToString x = Return s /\
                   test email_regex s = true) /\
      (In col ps <->
       exists x s, In x sample /\ ToString x = Return s /\
                   test phone_regex s = true) /\
      (In col ds <->
       exists x s, In x sample /\ ToString x = Return s /\
                   Date_parse_isNaN s = false).
Proof.
  intros data v columns col sample Hv Hcolumns Hcol Hsample.
  assert (Hdata : data <> []).
  { intros ->. cbn in Hcolumns. injection Hcolumns as <-. destruct Hcol. }
  destruct (generateFallbackAnalysis_Return Hv Hdata) as (columns' & p & Hc' & Hp & ->).
  rewrite Hcolumns in Hc'. injection Hc' as <-.
  destruct (forEach_detect_column _ _ col _ Hp Hcol) as (p0 & p1 & Hstep).
  apply detect_Return in Hstep
    as (sample' & be & bp & bd & Hs & Hemail & Hphone & Hdate & _).
  rewrite Hsample in Hs. injection Hs as <-.
  destruct (forEach_detect _ _ _ Hp) as [_ Hlists].
  destruct (Hlists col) as (Hem & Hph & Hda).
  destruct (detected_analysis_object p) as (De & Dp & Dd & _).
  exists (emails p), (phones p), (dates p).
  repeat (split; [assumption |]).
  assert (Hkey : forall (pred : any -> completion bool) (b : bool) (l : list string),
             some pred sample = Return b ->
             (In col l <->
              In col (@nil string) \/
              (In col columns /\
               exists sample', sample_of data col = Return sample' /\
                               some pred sample' = Return true)) ->
             (In col l <-> exists x, In x sample /\ pred x = Return true)).
  { intros pred b l Hb Hl. rewrite Hl, <- (some_true_iff _ _ Hb). split.
    - intros [[] | (_ & sample' & Hs' & Htrue)].
      rewrite Hsample in Hs'. injection Hs' as <-. congruence.
    - intros ->. right. eauto. }
  split; [| split].
  - rewrite (Hkey _ _ _ Hemail Hem). split.
    + intros (x & Hin & Hx). apply looks_like_email_true in Hx as (s & Hs & Ht). eauto.
    + intros (x & s & Hin & Hs & Ht). exists x. split; [exact Hin |].
      apply looks_like_email_true. eauto.
  - rewrite (Hkey _ _ _ Hphone Hph). split.
    + intros (x & Hin & Hx). apply looks_like_phone_true in Hx as (s & Hs & Ht). eauto.
    + intros (x & s & Hin & Hs & Ht). exists x. split; [exact Hin |].
      apply looks_like_phone_true. eauto.
  - rewrite (Hkey _ _ _ Hdate Hda). split.
    + intros (x & Hin & Hx). apply looks_like_date_true in Hx as (s & Hs & Ht). eauto.
    + intros (x & s & Hin & Hs & Ht). exists x. split; [exact Hin |].
      apply looks_like_date_true. eauto.
Qed.

(** The cells [row[col]] of given rows, when every read returns. *)
Lemma sequence_get_cells (col : string) (rows cells : list any) :
  sequence (map (fun row => get row col) rows) = Return cells <->
  Forall2 (fun row cell => get row col = Return cell) rows cells.
Proof.
  revert cells. induction rows as [| row rest IH]; intros cells; cbn.
  - split.
    + intros [= <-]. constructor.
    + intros H. inversion H. reflexivity.
  - split.
    + intros H. destruct (get row col) as [cell | e] eqn:Hget; [| discriminate].
      cbn in H.
      destruct (sequence (map (fun row0 => get row0 col) rest)) as [cells' | e] eqn:E;
        [| discriminate].
      cbn in H. injection H as <-. constructor; [exact Hget | now apply IH].
    + intros H. inversion H as [| row' cell rest' cells' Hget Hrest]; subst.
      rewrite Hget. cbn. apply IH in Hrest. rewrite Hrest. reflexivity.
Qed.

(** The sample of a column is made of the cells of the first ten rows, in
    order, without the falsy ones. *)
Lemma sample_of_cells (data : list any) (col : string) (sample : list any) :
  sample_of data col = Return sample <->
  exists cells,
    Forall2 (fun row cell => get row col = Return cell) (firstn 10 data) cells /\
    sample = filter ToBoolean cells.
Proof.
  unfold sample_of. rewrite slice_0_firstn. split.
  - intros H. apply bind_Return_inv in H as (cells & Hcells & Hret).
    cbn in Hret. injection Hret as <-.
    exists cells. split; [now apply sequence_get_cells | reflexivity].
  - intros (cells & Hcells & ->). apply sequence_get_cells in Hcells.
    rewrite Hcells. reflexivity.
Qed.

(** C5. For each column (a key of the first record) the fallback analysis
    reads the cell [row[col]] of each of the first ten rows and examines the
    non-empty ones, at most ten.  When the function returns, those cells
    exist, and for a column that has a non-empty cell among them: if the
    non-empty cells all match [\S+@\S+\.\S+] the column is in
    [patterns_detected.emails]; if they are all ISO date strings it is in
    [patterns_detected.dates]; and a column none of whose non-empty cells
    matches the email expression or parses as a date is in neither array.
    Membership is exact: a column is listed when, and only when, one of its
    non-empty cells passes the test. *)
Theorem generateFallbackAnalysis_patterns :
  forall (data : list any) (v : any) (columns : list string) (col : string),
    generateFallbackAnalysis data = Return v ->
    columns_of data = Return columns ->
    In col columns ->
    (exists cells,
        Forall2 (fun row cell => get row col = Return cell) (firstn 10 data) cells) /\
    forall cells,
      Forall2 (fun row cell => get row col = Return cell) (firstn 10 data) cells ->
      let sample := filter ToBoolean cells in
      sample_of data col = Return sample /\
      List.length sample <= 10 /\
      exists es ds,
        detected v "emails" = Return (strings es) /\
        detected v "dates" = Return (strings ds) /\
        (In col es <->
         exists x s, In x sample /\ ToString x = Return s /\
                     test email_regex s = true) /\
        (In col ds <->
         exists x s, In x sample /\ ToString x = Return s /\
                     Date_parse_isNaN s = false) /\
        (sample <> [] ->
         (forall x, In x sample ->
            exists s, ToString x = Return s /\ test email_regex s = true) ->
         In col es) /\
        (sample <> [] ->
         (forall x, In x sample ->
            exists s, ToString x = Return s /\ is_iso_date s = true) ->
         In col ds) /\
        ((forall x, In x sample ->
            exists s, ToString x = Return s /\
                      test email_regex s = false /\ Date_parse_isNaN s = true) ->
         ~ In col es /\ ~ In col ds).
Proof.
  intros data v columns col Hv Hcolumns Hcol.
  assert (Hdata : data <> []).
  { intros ->. cbn in Hcolumns. injection Hcolumns as <-. destruct Hcol. }
  destruct (generateFallbackAnalysis_Return Hv Hdata) as (columns' & p & Hc' & Hp & ->).
  rewrite Hcolumns in Hc'. injection Hc' as <-.
  destruct (forEach_detect_column _ _ col _ Hp Hcol) as (p0 & p1 & Hstep).
  apply detect_Return in Hstep
    as (sample0 & be & bp & bd & Hsample0 & Hemail & _ & Hdate & _).
  split.
  { apply sample_of_cells in Hsample0 as (cells & Hcells & _). eauto. }
  intros cells Hcells sample.
  assert (Hsample : sample_of data col = Return sample).
  { apply sample_of_cells. exists cells. now split. }
  rewrite Hsample in Hsample0. injection Hsample0 as <-.
  split; [exact Hsample |].
  split; [exact (proj1 (sample_of_spec _ _ Hsample)) |].
  destruct (forEach_detect _ _ _ Hp) as [_ Hlists].
  destruct (Hlists col) as (Hem & _ & Hda).
  destruct (detected_analysis_object p) as (De & _ & Dd & _).
  exists (emails p), (dates p).
  split; [exact De | split; [exact Dd |]].
  assert (Hkey : forall (pred : any -> completion bool) (b : bool) (l : list string),
             some pred sample = Return b ->
             (In col l <->
              In col (@nil string) \/
              (In col columns /\
               exists sample', sample_of data col = Return sample' /\
                               some pred sample' = Return true)) ->
             (In col l <-> exists x, In x sample /\ pred x = Return true)).
  { intros pred b l Hb Hl. rewrite Hl, <- (some_true_iff _ _ Hb). split.
    - intros [[] | (_ & sample' & Hs' & Htrue)].
      rewrite Hsample in Hs'. injection Hs' as <-. congruence.
    - intros ->. right. eauto. }
  assert (Hes : In col (emails p) <->
                exists x s, In x sample /\ ToString x = Return s /\
                            test email_regex s = true).
  { rewrite (Hkey _ _ _ Hemail Hem). split.
    - intros (x & Hin & Hx). apply looks_like_email_true in Hx as (s & Hs & Ht). eauto.
    - intros (x & s & Hin & Hs & Ht). exists x. split; [exact Hin |].
      apply looks_like_email_true. eauto. }
  assert (Hds : In col (dates p) <->
                exists x s, In x sample /\ ToString x = Return s /\
                            Date_parse_isNaN s = false).
  { rewrite (Hkey _ _ _ Hdate Hda). split.
    - intros (x & Hin & Hx). apply looks_like_date_true in Hx as (s & Hs & Ht). eauto.
    - intros (x & s & Hin & Hs & Ht). exists x. split; [exact Hin |].
      apply looks_like_date_true. eauto. }
  split; [exact Hes | split; [exact Hds |]].
  split; [| split].
  - intros Hne Hall. apply Hes.
    destruct sample as [| x rest]; [congruence |].
    destruct (Hall x (or_introl eq_refl)) as (s & Hs & Ht).
    exists x, s. repeat split; [now left | exact Hs | exact Ht].
  - intros Hne Hall. apply Hds.
    destruct sample as [| x rest]; [congruence |].
    destruct (Hall x (or_introl eq_refl)) as (s & Hs & Ht).
    exists x, s. repeat split; [now left | exact Hs |].
    unfold Date_parse_isNaN. now rewrite Ht.
  - intros Hall. split.
    + intros Hin. apply Hes in Hin as (x & s & Hx & Hs & Ht).
      destruct (Hall x Hx) as (s' & Hs' & Ht' & _). congruence.
    + intros Hin. apply Hds in Hin as (x & s & Hx & Hs & Ht).
      destruct (Hall x Hx) as (s' & Hs' & _ & Ht'). congruence.
Qed.

Lemma forEach_ext {A S} (f g : S -> A -> completion S) (l : list A) :
  (forall s a, f s a = g s a) ->
  forall s, forEach f l s = forEach g l s.
Proof.
  intros Hfg. induction l as [| a rest IH]; intros s; [reflexivity |].
  cbn. rewrite Hfg. destruct (g s a); cbn; auto.
Qed.

Lemma firstn_10_nonempty {A} (l1 l2 : list A) :
  firstn 10 l1 = firstn 10 l2 ->
  (l1 = [] /\ l2 = []) \/
  (exists x r1 r2, l1 = x :: r1 /\ l2 = x :: r2).
Proof.
  destruct l1 as [| x r1], l2 as [| y r2]; cbn; intros H;
    [now left | discriminate | discriminate |].
  injection H as -> _. right. eauto.
Qed.

(** Rows after the tenth play no part in the fallback analysis. *)
Lemma generateFallbackAnalysis_prefix (d1 d2 : list any) :
  firstn 10 d1 = firstn 10 d2 ->
  generateFallbackAnalysis d1 = generateFallbackAnalysis d2.
Proof.
  intros Hprefix.
  destruct (firstn_10_nonempty _ _ Hprefix)
    as [[-> ->] | (x & r1 & r2 & -> & ->)]; [reflexivity |].
  unfold generateFallbackAnalysis, detect_patterns, columns_of. cbn [List.length Nat.eqb index nth].
  destruct (Object_keys (or_empty_object x)) as [columns | e]; [| reflexivity].
  cbn [bind Monad_completion].
  rewrite (@forEach_ext _ _ (detect (x :: r1)) (detect (x :: r2))); [reflexivity |].
  intros p col. unfold detect, sample_of.
  now rewrite !slice_0_firstn, Hprefix.
Qed.

End FallbackAnalysis.

(** ** More on the helpers and the operations *)

Section Operations.
Import Facade.
Context {P : Platform}.
Variable hf : HfInference.

Lemma trimStart_starts (s : string) : starts_with_white_space (trimStart s) = false.
Proof.
  induction s as [| c s' IH]; cbn; [reflexivity |].
  destruct (is_white_space c) eqn:W; [exact IH | cbn; exact W].
Qed.

Lemma trimEnd_ends (s : string) : ends_with_white_space (trimEnd s) = false.
Proof.
  induction s as [| c s' IH]; cbn; [reflexivity |].
  destruct (trimEnd s') as [| c' r] eqn:E.
  - destruct (is_white_space c) eqn:W; cbn; [reflexivity | exact W].
  - exact IH.
Qed.

Lemma trimEnd_starts (s : string) :
  starts_with_white_space s = false -> starts_with_white_space (trimEnd s) = false.
Proof.
  destruct s as [| c s']; cbn; [reflexivity |]. intros W.
  destruct (trimEnd s'); [rewrite W |]; cbn; exact W.
Qed.

(** [text?.trim() || d]: [d], or a text that is not empty and has no white
    space at either end. *)
Lemma or_else_trim (text : option string) (d : string) :
  or_else (option_map trim text) d = d \/
  (or_else (option_map trim text) d <> "" /\
   starts_with_white_space (or_else (option_map trim text) d) = false /\
   ends_with_white_space (or_else (option_map trim text) d) = false).
Proof.
  destruct text as [t |]; [| now left]. cbn.
  pose proof (trimEnd_ends (trimStart t)) as He.
  pose proof (trimEnd_starts _ (trimStart_starts t)) as Hs.
  fold (trim t) in He, Hs. destruct (trim t) as [| c r]; [now left |].
  right. cbn [or_else]. split; [discriminate | now split].
Qed.

(** X7. The [data] of a response of [enhanceOCRText] is always a string:
    the text passed in, or a text that is not empty and has no white space
    at either end.  A text that is not empty never comes back empty. *)
Theorem enhanceOCRText_data :
  forall (extractedText : string) (imageContext : option string)
         (out : list console_line) (r : AIResponse),
    enhanceOCRText hf extractedText imageContext = (out, Return r) ->
    exists s,
      data r = Some (VStr s) /\
      (s = extractedText \/
       (s <> "" /\ starts_with_white_space s = false /\
        ends_with_white_space s = false)) /\
      (extractedText <> "" -> s <> "").
Proof.
  intros extractedText imageContext out r H. unfold enhanceOCRText in H.
  destruct (textGeneration hf _) as [r0 | e]; cbn in H; injection H as <- <-; cbn.
  - eexists. split; [reflexivity |].
    destruct (or_else_trim (generated_text r0) extractedText) as [-> | (Hne & Hs & He)].
    + split; [now left | auto].
    + split; [right; now split | auto].
  - exists extractedText. split; [reflexivity | split; [now left | auto]].
Qed.

Lemma or_else_default_nonempty (text : option string) (d : string) :
  d <> "" -> or_else text d <> "".
Proof. destruct text as [[| c r] |]; cbn; auto. discriminate. Qed.

(** X8. [generateChatResponse] always resolves, and the [data] of its
    response is always a string that is not empty: the trimmed answer, the
    request to rephrase, or the apology. *)
Theorem generateChatResponse_data :
  forall (userMessage : string) (dataContext : list any) (filename : string),
    exists out r s,
      generateChatResponse hf userMessage dataContext filename = (out, Return r) /\
      data r = Some (VStr s) /\ s <> "".
Proof.
  intros userMessage dataContext filename. unfold generateChatResponse.
  destruct (createDataSummary_returns dataContext filename) as [summary ->].
  rewrite bind_lift_Return.
  destruct (textGeneration hf _) as [r0 | e]; cbn.
  - do 3 eexists. split; [reflexivity |]. split; [reflexivity |].
    apply or_else_default_nonempty. discriminate.
  - do 3 eexists. split; [reflexivity |]. split; [reflexivity | discriminate].
Qed.

(** What [analyzeImageForOCR] does once the file is read: one call, with
    the second comma-separated field of the result as image. *)
Lemma analyzeImageForOCR_read (imageFile : File) (url : string) :
  FileReader_readAsDataURL imageFile = Return url ->
  analyzeImageForOCR hf imageFile
  = match visualQuestionAnswering hf
            (analyzeImageForOCR_request (nth_error (split "," url) 1)) with
    | Return r =>
        ([], Return {| success := true;
                       data := Some (VStr (or_else (answer r) ""));
                       error := None |})
    | Throw e =>
        ([("Hugging Face image analysis error:", e)],
         Return {| success := false;
                   data := Some (VStr "");
                   error := Some "Failed to analyze image" |})
    end.
Proof.
  intros Hread. unfold analyzeImageForOCR, fileToBase64. rewrite Hread.
  cbn [bind ret Monad_completion]. rewrite bind_lift_Return.
  destruct (visualQuestionAnswering hf _); reflexivity.
Qed.


(** When the file cannot be read, [analyzeImageForOCR] makes no remote
    call: whatever the client, it logs the event of the reader and resolves
    to the failure response, whose [data] is the empty string. *)
Lemma analyzeImageForOCR_unreadable_file :
  forall (imageFile : File) (e : exn),
    FileReader_readAsDataURL imageFile = Throw e ->
    forall client : HfInference,
      analyzeImageForOCR client imageFile
      = ([("Hugging Face image analysis error:", e)],
         Return {| success := false;
                   data := Some (VStr "");
                   error := Some "Failed to analyze image" |}).
Proof.
  intros imageFile e Hread client.
  unfold analyzeImageForOCR, fileToBase64. rewrite Hread. reflexivity.
Qed.


(** X10. When what the reader yields holds no comma, [split(',')[1]] is
    [undefined]: [fileToBase64] resolves to [undefined] without failing, and
    [analyzeImageForOCR] still makes the remote call, with [image]
    undefined. *)
Theorem analyzeImageForOCR_without_comma :
  forall (imageFile : File) (url : string),
    FileReader_readAsDataURL imageFile = Return url ->
    comma_free url = true ->
    fileToBase64 imageFile = Return None /\
    analyzeImageForOCR hf imageFile
    = match visualQuestionAnswering hf (analyzeImageForOCR_request None) with
      | Return r =>
          ([], Return {| success := true;
                         data := Some (VStr (or_else (answer r) ""));
                         error := None |})
      | Throw e =>
          ([("Hugging Face image analysis error:", e)],
           Return {| success := false;
                     data := Some (VStr "");
                     error := Some "Failed to analyze image" |})
      end.
Proof.
  intros imageFile url Hread Hfree. split.
  - unfold fileToBase64. rewrite Hread. cbn [bind ret Monad_completion].
    now rewrite (split_without_separator _ _ Hfree).
  - rewrite (analyzeImageForOCR_read _ Hread).
    now rewrite (split_without_separator _ _ Hfree).
Qed.

End Operations.

Section Responses.
Import Facade.
Context {P : Platform}.
Variable hf : HfInference.

(** X11. Every response that a public operation resolves to has [data],
    and is of one of two kinds: [success = true], no [error], nothing
    logged; or [success = false], the [error] of the operation, and one line
    logged with the label of the operation. *)
Theorem response_shape :
  forall (c : call) (out : list console_line) (r : AIResponse),
    run hf c = (out, Return r) ->
    data r <> None /\
    ((success r = true /\ error r = None /\ out = []) \/
     (success r = false /\ error r = Some (failure_message c) /\
      exists e, out = [(failure_label c, e)])).
Proof.
  intros c out r Hrun.
  destruct c as [text context | rows filename fileType | message rows filename | file];
    cbn [run failure_message failure_label] in *.
  - unfold enhanceOCRText in Hrun.
    destruct (textGeneration hf _) as [r0 | e]; cbn in Hrun;
      injection Hrun as <- <-; cbn; (split; [discriminate |]);
      [left | right]; eauto.
  - unfold cleanAndStructureData in Hrun.
    destruct (textGeneration hf _) as [r0 | e].
    + rewrite bind_lift_Return in Hrun.
      destruct (JSON_parse _) as [parsed | e]; cbn in Hrun.
      * injection Hrun as <- <-. cbn. split; [discriminate | left; auto].
      * destruct (generateFallbackAnalysis rows) as [v | e']; cbn in Hrun.
        -- injection Hrun as <- <-. cbn. split; [discriminate | left; auto].
        -- discriminate.
    + cbn in Hrun.
      destruct (generateFallbackAnalysis rows) as [v | e']; cbn in Hrun.
      * injection Hrun as <- <-. cbn. split; [discriminate | right; eauto].
      * discriminate.
  - unfold generateChatResponse in Hrun.
    destruct (createDataSummary_returns rows filename) as [summary Hsummary].
    rewrite Hsummary, bind_lift_Return in Hrun.
    destruct (textGeneration hf _) as [r0 | e]; cbn in Hrun;
      injection Hrun as <- <-; cbn; (split; [discriminate |]);
      [left | right]; eauto.
  - unfold analyzeImageForOCR in Hrun.
    destruct (fileToBase64 file) as [b | e].
    + rewrite bind_lift_Return in Hrun.
      destruct (visualQuestionAnswering hf _) as [r0 | e]; cbn in Hrun;
        injection Hrun as <- <-; cbn; (split; [discriminate |]);
        [left | right]; eauto.
    + cbn in Hrun. injection Hrun as <- <-. cbn.
      split; [discriminate | right; eauto].
Qed.

(** X12. [cleanAndStructureData] rejects exactly when it needs the fallback
    analysis (the remote call threw, or answered with a text that
    [JSON.parse] rejects) and the fallback analysis throws; it then rejects
    with what the fallback analysis threw. *)
Theorem cleanAndStructureData_rejects_iff :
  forall (data : list any) (filename fileType : string) (thrown : exn),
    snd (cleanAndStructureData hf data filename fileType) = Throw thrown <->
    generateFallbackAnalysis data = Throw thrown /\
    ((exists e,
         textGeneration hf (cleanAndStructureData_request data filename fileType)
         = Throw e) \/
     (exists r e,
         textGeneration hf (cleanAndStructureData_request data filename fileType)
         = Return r /\
         JSON_parse (or_else (generated_text r) "{}") = Throw e)).
Proof.
  intros data filename fileType thrown. unfold cleanAndStructureData.
  destruct (textGeneration hf _) as [r0 | e].
  - rewrite bind_lift_Return.
    destruct (JSON_parse (or_else (generated_text r0) "{}")) as [parsed | e] eqn:Hparse;
      cbn; rewrite ?Hparse; cbn.
    + split; [discriminate |].
      intros [_ [[e [=]] | (r & e & [= <-] & H)]]. congruence.
    + destruct (generateFallbackAnalysis data) as [v | e']; cbn.
      * split; [discriminate | intros [[=] _]].
      * split.
        -- intros [= ->]. split; [reflexivity | right; eauto].
        -- now intros [[= ->] _].
  - cbn. destruct (generateFallbackAnalysis data) as [v | e']; cbn.
    + split; [discriminate | intros [[=] _]].
    + split.
      * intros [= ->]. split; [reflexivity | left; eauto].
      * now intros [[= ->] _].
Qed.


(** When the text handed to [JSON.parse] parses, [cleanAndStructureData]
    resolves with the parsed value as [data], as it is (no shape is
    checked), for every data array: the rows play no part. *)
Lemma cleanAndStructureData_parsed_answer :
  forall (data : list any) (filename fileType : string)
         (r : TextGenerationOutput) (v : any),
    textGeneration hf (cleanAndStructureData_request data filename fileType) = Return r ->
    JSON_parse (or_else (generated_text r) "{}") = Return v ->
    cleanAndStructureData hf data filename fileType
    = ([], Return {| success := true; data := Some v; error := None |}).
Proof.
  intros data filename fileType r v Hcall Hparse.
  rewrite (cleanAndStructureData_answered _ _ _ _ Hcall), Hparse. reflexivity.
Qed.

(** X14. Of its data, [cleanAndStructureData] uses the first ten rows and
    the number of rows only: two arrays that agree on both get the same
    request, the same fallback analysis and the same result. *)
Theorem cleanAndStructureData_first_ten_rows :
  forall (d1 d2 : list any) (filename fileType : string),
    firstn 10 d1 = firstn 10 d2 ->
    generateFallbackAnalysis d1 = generateFallbackAnalysis d2 /\
    (List.length d1 = List.length d2 ->
     cleanAndStructureData_request d1 filename fileType
     = cleanAndStructureData_request d2 filename fileType /\
     cleanAndStructureData hf d1 filename fileType
     = cleanAndStructureData hf d2 filename fileType).
Proof.
  intros d1 d2 filename fileType Hprefix.
  pose proof (generateFallbackAnalysis_prefix _ _ Hprefix) as Hfallback.
  split; [exact Hfallback |]. intros Hlen.
  assert (Hrequest : cleanAndStructureData_request d1 filename fileType
                     = cleanAndStructureData_request d2 filename fileType).
  { unfold cleanAndStructureData_request. now rewrite !slice_0_firstn, Hprefix, Hlen. }
  split; [exact Hrequest |].
  unfold cleanAndStructureData. now rewrite Hrequest, Hfallback.
Qed.

Lemma firstn_3_head {A} (l1 l2 : list A) :
  firstn 3 l1 = firstn 3 l2 ->
  (l1 = [] /\ l2 = []) \/
  (exists x r1 r2, l1 = x :: r1 /\ l2 = x :: r2).
Proof.
  destruct l1 as [| x r1], l2 as [| y r2]; cbn; intros H;
    [now left | discriminate | discriminate |].
  injection H as -> _. right. eauto.
Qed.

(** X15. Of its data, [generateChatResponse] uses the first three rows and
    the number of rows only: two arrays that agree on both get the same
    summary and the same result. *)
Theorem generateChatResponse_first_three_rows :
  forall (d1 d2 : list any) (userMessage filename : string),
    firstn 3 d1 = firstn 3 d2 ->
    List.length d1 = List.length d2 ->
    createDataSummary d1 filename = createDataSummary d2 filename /\
    generateChatResponse hf userMessage d1 filename
    = generateChatResponse hf userMessage d2 filename.
Proof.
  intros d1 d2 userMessage filename Hprefix Hlen.
  assert (Hsummary : createDataSummary d1 filename = createDataSummary d2 filename).
  { unfold createDataSummary, columns_of. rewrite !slice_0_firstn, Hprefix, Hlen.
    destruct (firstn_3_head _ _ Hprefix)
      as [[-> ->] | (x & r1 & r2 & -> & ->)]; reflexivity. }
  split; [exact Hsummary |].
  unfold generateChatResponse. now rewrite Hsummary.
Qed.

(** X16. [createDataSummary] answers [No data available] for the empty
    array and for no other: every other summary starts with [Dataset: ]. *)
Theorem createDataSummary_no_data_iff :
  forall (data : list any) (filename : string),
    createDataSummary data filename = Return "No data available" <-> data = [].
Proof.
  intros data filename. split; [| now intros ->].
  destruct data as [| row rows]; [reflexivity |].
  unfold createDataSummary. cbn [List.length Nat.eqb].
  destruct (columns_of_returns (row :: rows)) as [columns ->].
  cbn. discriminate.
Qed.

End Responses.

(** ** The singleton accessor *)

Section SingletonAccessor.
Import Singleton.

Lemma getInstance_set (s : statics) :
  instance (snd (getInstance s)) = Some (fst (getInstance s)).
Proof. unfold getInstance. destruct (instance s) eqn:E; cbn; auto. Qed.

Lemma getInstance_again (s : statics) (r : ref) :
  instance s = Some r -> getInstance s = (r, s).
Proof. unfold getInstance. now intros ->. Qed.

Lemma calls_again (n : nat) (s : statics) (r : ref) :
  instance s = Some r -> calls n s = (repeat r n, s).
Proof.
  intros Hs. induction n as [| n IH]; [reflexivity |].
  cbn. now rewrite (getInstance_again _ Hs), IH.
Qed.

(** X17. [getInstance] constructs the service once: from any state, the
    first call leaves the static field set to what it returns, every later
    call returns that same object and changes nothing, and a call constructs
    an object only when the field was not set.  From the initial state, any
    number of calls return the exported [huggingFaceService], and one
    service has been constructed. *)
Theorem getInstance_singleton :
  forall (s : statics) (n : nat),
    calls n (snd (getInstance s)) = (repeat (fst (getInstance s)) n, snd (getInstance s)) /\
    (instance s = None ->
     constructed (snd (getInstance s))
     = (constructed s ++ ["Qwen/Qwen2.5-VL-7B-Instruct"])%list) /\
    (instance s <> None -> snd (getInstance s) = s) /\
    fst (calls (S n) initial) = repeat (fst huggingFaceService) (S n) /\
    constructed (snd (calls (S n) initial)) = ["Qwen/Qwen2.5-VL-7B-Instruct"].
Proof.
  intros s n. split; [| split; [| split; [| split]]].
  - apply calls_again, getInstance_set.
  - unfold getInstance. now intros ->.
  - unfold getInstance. destruct (instance s); [reflexivity | congruence].
  - cbn [calls]. unfold huggingFaceService.
    destruct (getInstance initial) as [r s1] eqn:E.
    assert (Hs1 : instance s1 = Some r).
    { pose proof (getInstance_set initial) as H. now rewrite E in H. }
    now rewrite (calls_again n _ Hs1).
  - cbn [calls].
    destruct (getInstance initial) as [r s1] eqn:E.
    assert (Hs1 : instance s1 = Some r).
    { pose proof (getInstance_set initial) as H. now rewrite E in H. }
    rewrite (calls_again n _ Hs1). cbn. now injection E as _ <-.
Qed.

End SingletonAccessor.

(** * Evaluation on the reference platform *)

Module Examples.
Import Reference Facade.

Example generateFallbackAnalysis_contacts :
  generateFallbackAnalysis contacts = Return contacts_analysis.
Proof. vm_compute. reflexivity. Qed.

(** C1 as stated fails.  The remote call answers with the empty string,
    which [JSON.parse] rejects on every platform; the operation parses the
    substituted text and resolves with the empty object as [data], which is
    not the fallback analysis of the data. *)
Lemma cleanAndStructureData_empty_text_counterexample :
  textGeneration (answering "") (cleanAndStructureData_request contacts "c.csv" "csv")
    = Return {| generated_text := Some "" |} /\
  JSON_parse "" = Throw SyntaxError /\
  generateFallbackAnalysis contacts = Return contacts_analysis /\
  cleanAndStructureData (answering "") contacts "c.csv" "csv"
    = ([], Return {| success := true; data := Some (VObj []); error := None |}) /\
  cleanAndStructureData (answering "") contacts "c.csv" "csv"
    <> ([], Return {| success := true; data := Some contacts_analysis; error := None |}).
Proof.
  split; [reflexivity |]. split; [exact JSON_parse_empty_text |].
  split; [exact generateFallbackAnalysis_contacts |].
  split; [vm_compute; reflexivity |].
  vm_compute. discriminate.
Qed.

Lemma cleanAndStructureData_unparsable_text_witness :
  cleanAndStructureData (answering "Sure! Here is the analysis:") contacts "c.csv" "csv"
  = ([], Return {| success := true; data := Some contacts_analysis; error := None |}).
Proof.
  apply (cleanAndStructureData_unparsable_text (answering "Sure! Here is the analysis:")
           contacts "c.csv" "csv" (text := "Sure! Here is the analysis:")
           (e := SyntaxError)).
  - reflexivity.
  - discriminate.
  - reflexivity.
  - exact generateFallbackAnalysis_contacts.
Defined.

Lemma enhanceOCRText_failure_witness :
  enhanceOCRText unreachable "1nv0ice t0tal" (Some "a receipt")
  = ([("Hugging Face OCR enhancement error:", HostError "fetch failed")],
     Return {| success := false;
               data := Some (VStr "1nv0ice t0tal");
               error := Some "Failed to enhance OCR text" |}).
Proof.
  apply (enhanceOCRText_failure_passes_text_through unreachable
           "1nv0ice t0tal" (Some "a receipt")).
  reflexivity.
Defined.

Lemma cleanAndStructureData_rejects_witness :
  cleanAndStructureData unreachable [VObj [("a", VNum 1%Z)]; VNull] "c.csv" "csv"
  = ([("Hugging Face data cleaning error:", HostError "fetch failed")], Throw TypeError).
Proof.
  apply (cleanAndStructureData_rejects_on_null_row (P := platform)
           unreachable "a" (VNum 1%Z) "c.csv" "csv").
  reflexivity.
Defined.

Lemma cleanAndStructureData_empty_data_witness :
  cleanAndStructureData (answering "n/a") [] "empty.csv" "csv"
  = ([], Return {| success := true; data := Some (VObj []); error := None |}) /\
  cleanAndStructureData unreachable [] "empty.csv" "csv"
  = ([("Hugging Face data cleaning error:", HostError "fetch failed")],
     Return {| success := false;
               data := Some (VObj []);
               error := Some "Failed to analyze data" |}).
Proof.
  split.
  - apply (proj1 (proj2 (cleanAndStructureData_empty_data (answering "n/a")
                           "empty.csv" "csv"))
             "n/a" SyntaxError); reflexivity.
  - apply (proj2 (proj2 (cleanAndStructureData_empty_data unreachable
                           "empty.csv" "csv"))
             (HostError "fetch failed")); reflexivity.
Defined.

Lemma cleanAndStructureData_missing_text_witness :
  or_else None "{}" = "{}" /\
  cleanAndStructureData silent contacts "c.csv" "csv"
  = ([], Return {| success := true; data := Some (VObj []); error := None |}).
Proof.
  apply (cleanAndStructureData_missing_text silent contacts "c.csv" "csv"
           (r := {| generated_text := None |})).
  - reflexivity.
  - left. reflexivity.
Defined.

(** C9 as stated fails.  For the empty data array the function returns the
    empty object, which has no [patterns_detected]: reading its [addresses]
    throws, and is no empty array. *)
Lemma generateFallbackAnalysis_addresses_counterexample :
  generateFallbackAnalysis (P := platform) [] = Return (VObj []) /\
  assoc (P := platform) "patterns_detected" [] = None /\
  detected (P := platform) (VObj []) "addresses" = Throw TypeError /\
  detected (P := platform) (VObj []) "addresses" <> Return (VArr []).
Proof. repeat split. discriminate. Qed.

Lemma generateFallbackAnalysis_addresses_witness :
  detected contacts_analysis "addresses" = Return (VArr []).
Proof.
  apply (proj1 (@generateFallbackAnalysis_addresses_empty platform
                  contacts contacts_analysis generateFallbackAnalysis_contacts)).
  discriminate.
Defined.

Lemma generateFallbackAnalysis_patterns_witness :
  (exists es, detected contacts_analysis "emails" = Return (strings es) /\
              In "email" es) /\
  (exists ds, detected contacts_analysis "dates" = Return (strings ds) /\
              In "joined" ds) /\
  (exists es ds,
     detected contacts_analysis "emails" = Return (strings es) /\
     detected contacts_analysis "dates" = Return (strings ds) /\
     ~ In "note" es /\ ~ In "note" ds).
Proof.
  split; [| split].
  - destruct (proj2 (@generateFallbackAnalysis_patterns platform
                       contacts contacts_analysis ["email"; "joined"; "note"] "email"
                       generateFallbackAnalysis_contacts eq_refl (or_introl eq_refl))
                emails_sample ltac:(repeat constructor))
      as (_ & _ & es & ds & He & _ & _ & _ & Hall & _ & _).
    exists es. split; [exact He |]. apply Hall; [discriminate |].
    intros x Hx. cbn in Hx. destruct Hx as [<- | [<- | []]];
      eexists; (split; [reflexivity |]).
    + apply (@email_shape_passes "ada" "example" "org");
        (discriminate || reflexivity).
    + apply (@email_shape_passes "bob" "example" "org");
        (discriminate || reflexivity).
  - destruct (proj2 (@generateFallbackAnalysis_patterns platform
                       contacts contacts_analysis ["email"; "joined"; "note"] "joined"
                       generateFallbackAnalysis_contacts eq_refl
                       (or_intror (or_introl eq_refl)))
                joined_sample ltac:(repeat constructor))
      as (_ & _ & es & ds & _ & Hd & _ & _ & _ & Hall & _).
    exists ds. split; [exact Hd |]. apply Hall; [discriminate |].
    intros x Hx. cbn in Hx. destruct Hx as [<- | [<- | []]];
      eexists; (split; [reflexivity |]); vm_compute; reflexivity.
  - destruct (proj2 (@generateFallbackAnalysis_patterns platform
                       contacts contacts_analysis ["email"; "joined"; "note"] "note"
                       generateFallbackAnalysis_contacts eq_refl
                       (or_intror (or_intror (or_introl eq_refl))))
                Tables.notes_cells ltac:(repeat constructor))
      as (_ & _ & es & ds & He & Hd & _ & _ & _ & _ & Hnone).
    exists es, ds. split; [exact He | split; [exact Hd |]]. apply Hnone.
    intros x Hx. cbn in Hx. destruct Hx as [<- | []].
    eexists. split; [reflexivity |]. split; vm_compute; reflexivity.
Defined.



Lemma createDataSummary_witness :
  exists (columns : list string) (summary : string),
    columns_of contacts = Return columns /\
    createDataSummary contacts "c.csv" = Return summary /\
    summary = "Dataset: " ++ "c.csv" ++ LF
              ++ "Rows: " ++ string_of_nat (List.length contacts) ++ LF
              ++ "Columns: " ++ join ", " columns ++ LF
              ++ "Sample Data: "
              ++ template_of (JSON_stringify (VArr (firstn 3 contacts))) /\
    nat_of_string (string_of_nat (List.length contacts)) = Some (List.length contacts) /\
    List.length (firstn 3 contacts) <= 3 /\
    (forall properties, index contacts 0 = VObj properties ->
                        columns = map fst properties) /\
    (line_free "c.csv" = true ->
     field "Rows" summary = Some (string_of_nat (List.length contacts))).
Proof.
  apply (proj2 (createDataSummary_shape contacts "c.csv")).
  discriminate.
Defined.

Lemma failure_carries_fallback_witness :
  exists v, fallback_data (CleanAndStructureData contacts "c.csv" "csv") = Return v /\
            Some contacts_analysis = Some v.
Proof.
  apply (failure_carries_fallback unreachable
           (CleanAndStructureData contacts "c.csv" "csv")
           (out := [("Hugging Face data cleaning error:", HostError "fetch failed")])
           (r := {| success := false;
                    data := Some contacts_analysis;
                    error := Some "Failed to analyze data" |})).
  - vm_compute. reflexivity.
  - reflexivity.
Defined.

(** ** Further properties, evaluated *)

Import Tables.

Lemma generateFallbackAnalysis_lists_witness :
  exists es ps ds,
    detected contacts_analysis "emails" = Return (strings es) /\
    detected contacts_analysis "phones" = Return (strings ps) /\
    detected contacts_analysis "dates" = Return (strings ds) /\
    es = filter (passes looks_like_email contacts) ["email"; "joined"; "note"] /\
    ps = filter (passes looks_like_phone contacts) ["email"; "joined"; "note"] /\
    ds = filter (passes looks_like_date contacts) ["email"; "joined"; "note"] /\
    (forall col, In col es \/ In col ps \/ In col ds ->
                 In col ["email"; "joined"; "note"]) /\
    (NoDup ["email"; "joined"; "note"] -> NoDup es /\ NoDup ps /\ NoDup ds).
Proof.
  apply (@generateFallbackAnalysis_lists platform contacts contacts_analysis
           ["email"; "joined"; "note"] generateFallbackAnalysis_contacts).
  - discriminate.
  - reflexivity.
Defined.

Lemma generateFallbackAnalysis_iso_date_is_phone_witness :
  exists ps ds,
    detected contacts_analysis "phones" = Return (strings ps) /\
    detected contacts_analysis "dates" = Return (strings ds) /\
    In "joined" ps /\ In "joined" ds.
Proof.
  apply (@generateFallbackAnalysis_iso_date_is_phone platform
           contacts contacts_analysis ["email"; "joined"; "note"] "joined"
           joined_sample "2024-01-15" generateFallbackAnalysis_contacts eq_refl).
  - right. left. reflexivity.
  - reflexivity.
  - left. reflexivity.
  - reflexivity.
Defined.

Example generateFallbackAnalysis_sparse :
  generateFallbackAnalysis sparse = Return sparse_analysis.
Proof. vm_compute. reflexivity. Qed.

Lemma generateFallbackAnalysis_empty_column_witness :
  exists es ps ds,
    detected sparse_analysis "emails" = Return (strings es) /\
    detected sparse_analysis "phones" = Return (strings ps) /\
    detected sparse_analysis "dates" = Return (strings ds) /\
    ~ In "note" es /\ ~ In "note" ps /\ ~ In "note" ds.
Proof.
  apply (@generateFallbackAnalysis_empty_column platform sparse sparse_analysis "note"
           generateFallbackAnalysis_sparse).
  - discriminate.
  - intros row x [<- | [<- | []]] Hget; cbn in Hget; injection Hget as <-; reflexivity.
Defined.

Lemma enhanceOCRText_data_witness :
  exists s,
    (Some (VStr "Invoice total: 40") : option any) = Some (VStr s) /\
    (s = "1nv0ice t0tal: 4O" \/
     (s <> "" /\ starts_with_white_space s = false /\
      ends_with_white_space s = false)) /\
    ("1nv0ice t0tal: 4O" <> "" -> s <> "").
Proof.
  apply (@enhanceOCRText_data platform (answering "  Invoice total: 40 
")
           "1nv0ice t0tal: 4O" None []
           {| success := true; data := Some (VStr "Invoice total: 40"); error := None |}).
  reflexivity.
Defined.


Lemma analyzeImageForOCR_without_comma_witness :
  fileToBase64 (Some "blob:7f3a") = Return None /\
  analyzeImageForOCR silent (Some "blob:7f3a")
  = ([], Return {| success := true; data := Some (VStr ""); error := None |}).
Proof.
  apply (@analyzeImageForOCR_without_comma platform silent (Some "blob:7f3a") "blob:7f3a");
    reflexivity.
Defined.

Lemma response_shape_witness :
  (Some (VStr chat_apology) : option any) <> None /\
  ((false = true /\ Some "Failed to generate response" = None /\
    [("Hugging Face chat error:", HostError "fetch failed")] = []) \/
   (false = false /\
    Some "Failed to generate response" = Some "Failed to generate response" /\
    exists e, [("Hugging Face chat error:", HostError "fetch failed")]
              = [("Hugging Face chat error:", e)])).
Proof.
  apply (@response_shape platform unreachable
           (GenerateChatResponse "How many rows?" contacts "c.csv")
           [("Hugging Face chat error:", HostError "fetch failed")]
           {| success := false;
              data := Some (VStr chat_apology);
              error := Some "Failed to generate response" |}).
  vm_compute. reflexivity.
Defined.


Lemma cleanAndStructureData_first_ten_rows_witness :
  generateFallbackAnalysis long_1 = generateFallbackAnalysis long_2 /\
  (List.length long_1 = List.length long_2 ->
   cleanAndStructureData_request long_1 "l.csv" "csv"
   = cleanAndStructureData_request long_2 "l.csv" "csv" /\
   cleanAndStructureData unreachable long_1 "l.csv" "csv"
   = cleanAndStructureData unreachable long_2 "l.csv" "csv").
Proof.
  apply (@cleanAndStructureData_first_ten_rows platform unreachable
           long_1 long_2 "l.csv" "csv").
  reflexivity.
Defined.

Lemma generateChatResponse_first_three_rows_witness :
  createDataSummary (contacts ++ [VNull; VStr "x"])%list "c.csv"
  = createDataSummary (contacts ++ [VNull; VNull])%list "c.csv" /\
  generateChatResponse silent "How many rows?" (contacts ++ [VNull; VStr "x"])%list "c.csv"
  = generateChatResponse silent "How many rows?" (contacts ++ [VNull; VNull])%list "c.csv".
Proof.
  apply (@generateChatResponse_first_three_rows platform silent
           (contacts ++ [VNull; VStr "x"])%list (contacts ++ [VNull; VNull])%list
           "How many rows?" "c.csv");
    reflexivity.
Defined.

Lemma generateFallbackAnalysis_one_value_is_enough_witness :
  exists es ps ds,
    detected contacts_analysis "emails" = Return (strings es) /\
    detected contacts_analysis "phones" = Return (strings ps) /\
    detected contacts_analysis "dates" = Return (strings ds) /\
    (In "note" es <->
     exists x s, In x notes_sample /\ ToString x = Return s /\
                 test email_regex s = true) /\
    (In "note" ps <->
     exists x s, In x notes_sample /\ ToString x = Return s /\
                 test phone_regex s = true) /\
    (In "note" ds <->
     exists x s, In x notes_sample /\ ToString x = Return s /\
                 Date_parse_isNaN s = false).
Proof.
  apply (@generateFallbackAnalysis_one_value_is_enough platform
           contacts contacts_analysis ["email"; "joined"; "note"] "note"
           notes_sample generateFallbackAnalysis_contacts eq_refl).
  - right. right. left. reflexivity.
  - reflexivity.
Defined.

End Examples.
